(** * PIDController (wpilib/pidcontroller.py): a shallow embedding

    The controller object is a record of its instance attributes; a method
    is a function from the controller to an outcome (a returned value or a
    raised exception) and the controller it leaves behind.

    Number model: Python's [int]/[float] values are exact rationals [Q]
    (rounding, infinities and NaN are outside the model).  Each division
    of the source is guarded by a test on its divisor or has a literal
    divisor, so the value of [x / 0] in [Q] is never used.  Where the
    rounding of the arithmetic decides what a method returns, in the
    tolerance test of [onTarget], the method is modelled a second time
    on binary64 numbers (module [Float64]).

    The methods run under [self.mutex]; the embedding is the sequential
    behaviour of one call.  The NetworkTables entries ([pEntry] ...
    [enabledEntry]) are [None] unless [initTable] attached a table; the
    model is the controller without a table. *)

From Stdlib Require Import String QArith Qabs Lqa ZArith List Bool Lia.
From Stdlib Require PrimFloat.
Import ListNotations.
Local Open Scope Q_scope.

(** ** Python helpers *)

(** [a > b] and [a < b] on numbers. *)
Definition Qgtb (a b : Q) : bool :=
  match a ?= b with Gt => true | _ => false end.

Definition Qltb (a b : Q) : bool :=
  match a ?= b with Lt => true | _ => false end.

(** [x != 0], which is also the truth value of a number. *)
Definition nonzero (x : Q) : bool := negb (Qeq_bool x 0).

(** Built-in [min(a, b)]: the first argument unless the second is smaller. *)
Definition py_min (a b : Q) : Q := if Qltb b a then b else a.

(** Built-in [max(a, b)]: the first argument unless the second is larger. *)
Definition py_max (a b : Q) : Q := if Qgtb b a then b else a.

(** Built-in [sum]: a left fold starting at [0]. *)
Definition py_sum (l : list Q) : Q := fold_left Qplus l 0.

(** ** collections.deque with a [maxlen] *)

Record deque : Type := mkDeque { items : list Q; maxlen : nat }.

(** Keep the last [n] elements of [l]. *)
Definition lastn (n : nat) (l : list Q) : list Q :=
  skipn (length l - n) l.

(** [deque(iterable, maxlen=n)]: the elements are appended one by one, so
    only the last [n] remain. *)
Definition deque_new (l : list Q) (n : nat) : deque :=
  {| items := lastn n l; maxlen := n |}.

(** [d.append(x)]: add on the right; a full deque drops from the left. *)
Definition deque_append (x : Q) (d : deque) : deque :=
  {| items := lastn (maxlen d) (items d ++ [x]); maxlen := maxlen d |}.

(** [d.clear()] *)
Definition deque_clear (d : deque) : deque :=
  {| items := []; maxlen := maxlen d |}.

(** [list(islice(d, n))] for [n >= 0]: the first [n] elements in iteration
    order, which for a deque is left to right, oldest first. *)
Definition islice (d : deque) (n : nat) : list Q := firstn n (items d).

(** ** Collaborators *)

(** [PIDSource.PIDSourceType] *)
Inductive PIDSourceType : Type := kDisplacement | kRate.

Definition PIDSourceType_eqb (a b : PIDSourceType) : bool :=
  match a, b with
  | kDisplacement, kDisplacement | kRate, kRate => true
  | _, _ => false
  end.

(** The input source as gyrobase.py implements it: it stores its source
    type ([self.pidSource], read by [getPIDSourceType]); what [pidGet]
    returns comes from the sensor and is an argument of the tick. *)
Record PIDSource : Type := mkSource { pidSource : PIDSourceType }.

Definition getPIDSourceType (src : PIDSource) : PIDSourceType :=
  pidSource src.

(** The output sink, seen through the values written to it, oldest
    first. *)
Record PIDOutput : Type := mkOutput { written : list Q }.

Definition pidWrite (v : Q) (o : PIDOutput) : PIDOutput :=
  {| written := written o ++ [v] |}.

(** Modelled from the spec: the [Timer] class (wpilib/timer.py) is not
    among the sources.  The spec uses it as the time elapsed since the
    last setpoint change: a stopwatch that remembers when it was last
    reset.  The clock reading [now] is supplied by the caller; one call
    of a controller method sees one reading. *)
Record Timer : Type := mkTimer { startTime : Q }.

Definition Timer_get (now : Q) (t : Timer) : Q := now - startTime t.

Definition Timer_reset (now : Q) (t : Timer) : Timer :=
  {| startTime := now |}.

(** The tolerance installed by [setAbsoluteTolerance] or
    [setPercentTolerance]: the closure stored in [self.onTarget]. *)
Inductive Tolerance : Type :=
| AbsoluteTolerance (value : Q)
| PercentageTolerance (percentage : Q).

(** ** The controller *)

Record PIDController : Type := mkPID {
  P : Q;
  I : Q;
  D : Q;
  F : Q;
  pidOutput : option PIDOutput;
  pidInput : option PIDSource;
  period : Q;
  maximumOutput : Q;
  minimumOutput : Q;
  maximumInput : Q;
  minimumInput : Q;
  continuous : bool;
  enabled : bool;
  prevError : Q;
  totalError : Q;
  buf : deque;
  setpoint : Q;
  prevSetpoint : Q;
  error : Q;
  result : Q;
  setpointTimer : Timer;
  onTarget_attr : option Tolerance
}.

(** Attribute assignment, [self.x = v], one function per attribute that a
    method assigns. *)

Definition set_P (v : Q) (s : PIDController) : PIDController :=
  mkPID v (I s) (D s) (F s) (pidOutput s) (pidInput s) (period s)
    (maximumOutput s) (minimumOutput s) (maximumInput s) (minimumInput s)
    (continuous s) (enabled s) (prevError s) (totalError s) (buf s)
    (setpoint s) (prevSetpoint s) (error s) (result s) (setpointTimer s)
    (onTarget_attr s).

Definition set_I (v : Q) (s : PIDController) : PIDController :=
  mkPID (P s) v (D s) (F s) (pidOutput s) (pidInput s) (period s)
    (maximumOutput s) (minimumOutput s) (maximumInput s) (minimumInput s)
    (continuous s) (enabled s) (prevError s) (totalError s) (buf s)
    (setpoint s) (prevSetpoint s) (error s) (result s) (setpointTimer s)
    (onTarget_attr s).

Definition set_D (v : Q) (s : PIDController) : PIDController :=
  mkPID (P s) (I s) v (F s) (pidOutput s) (pidInput s) (period s)
    (maximumOutput s) (minimumOutput s) (maximumInput s) (minimumInput s)
    (continuous s) (enabled s) (prevError s) (totalError s) (buf s)
    (setpoint s) (prevSetpoint s) (error s) (result s) (setpointTimer s)
    (onTarget_attr s).

Definition set_F (v : Q) (s : PIDController) : PIDController :=
  mkPID (P s) (I s) (D s) v (pidOutput s) (pidInput s) (period s)
    (maximumOutput s) (minimumOutput s) (maximumInput s) (minimumInput s)
    (continuous s) (enabled s) (prevError s) (totalError s) (buf s)
    (setpoint s) (prevSetpoint s) (error s) (result s) (setpointTimer s)
    (onTarget_attr s).

Definition set_pidOutput (v : option PIDOutput) (s : PIDController)
  : PIDController :=
  mkPID (P s) (I s) (D s) (F s) v (pidInput s) (period s) (maximumOutput s)
    (minimumOutput s) (maximumInput s) (minimumInput s) (continuous s)
    (enabled s) (prevError s) (totalError s) (buf s) (setpoint s)
    (prevSetpoint s) (error s) (result s) (setpointTimer s)
    (onTarget_attr s).

Definition set_pidInput (v : option PIDSource) (s : PIDController)
  : PIDController :=
  mkPID (P s) (I s) (D s) (F s) (pidOutput s) v (period s) (maximumOutput s)
    (minimumOutput s) (maximumInput s) (minimumInput s) (continuous s)
    (enabled s) (prevError s) (totalError s) (buf s) (setpoint s)
    (prevSetpoint s) (error s) (result s) (setpointTimer s)
    (onTarget_attr s).

Definition set_maximumOutput (v : Q) (s : PIDController) : PIDController :=
  mkPID (P s) (I s) (D s) (F s) (pidOutput s) (pidInput s) (period s) v
    (minimumOutput s) (maximumInput s) (minimumInput s) (continuous s)
    (enabled s) (prevError s) (totalError s) (buf s) (setpoint s)
    (prevSetpoint s) (error s) (result s) (setpointTimer s)
    (onTarget_attr s).

Definition set_minimumOutput (v : Q) (s : PIDController) : PIDController :=
  mkPID (P s) (I s) (D s) (F s) (pidOutput s) (pidInput s) (period s)
    (maximumOutput s) v (maximumInput s) (minimumInput s) (continuous s)
    (enabled s) (prevError s) (totalError s) (buf s) (setpoint s)
    (prevSetpoint s) (error s) (result s) (setpointTimer s)
    (onTarget_attr s).

Definition set_maximumInput (v : Q) (s : PIDController) : PIDController :=
  mkPID (P s) (I s) (D s) (F s) (pidOutput s) (pidInput s) (period s)
    (maximumOutput s) (minimumOutput s) v (minimumInput s) (continuous s)
    (enabled s) (prevError s) (totalError s) (buf s) (setpoint s)
    (prevSetpoint s) (error s) (result s) (setpointTimer s)
    (onTarget_attr s).

Definition set_minimumInput (v : Q) (s : PIDController) : PIDController :=
  mkPID (P s) (I s) (D s) (F s) (pidOutput s) (pidInput s) (period s)
    (maximumOutput s) (minimumOutput s) (maximumInput s) v (continuous s)
    (enabled s) (prevError s) (totalError s) (buf s) (setpoint s)
    (prevSetpoint s) (error s) (result s) (setpointTimer s)
    (onTarget_attr s).

Definition set_continuous (v : bool) (s : PIDController) : PIDController :=
  mkPID (P s) (I s) (D s) (F s) (pidOutput s) (pidInput s) (period s)
    (maximumOutput s) (minimumOutput s) (maximumInput s) (minimumInput s) v
    (enabled s) (prevError s) (totalError s) (buf s) (setpoint s)
    (prevSetpoint s) (error s) (result s) (setpointTimer s)
    (onTarget_attr s).

Definition set_enabled (v : bool) (s : PIDController) : PIDController :=
  mkPID (P s) (I s) (D s) (F s) (pidOutput s) (pidInput s) (period s)
    (maximumOutput s) (minimumOutput s) (maximumInput s) (minimumInput s)
    (continuous s) v (prevError s) (totalError s) (buf s) (setpoint s)
    (prevSetpoint s) (error s) (result s) (setpointTimer s)
    (onTarget_attr s).

Definition set_prevError (v : Q) (s : PIDController) : PIDController :=
  mkPID (P s) (I s) (D s) (F s) (pidOutput s) (pidInput s) (period s)
    (maximumOutput s) (minimumOutput s) (maximumInput s) (minimumInput s)
    (continuous s) (enabled s) v (totalError s) (buf s) (setpoint s)
    (prevSetpoint s) (error s) (result s) (setpointTimer s)
    (onTarget_attr s).

Definition set_totalError (v : Q) (s : PIDController) : PIDController :=
  mkPID (P s) (I s) (D s) (F s) (pidOutput s) (pidInput s) (period s)
    (maximumOutput s) (minimumOutput s) (maximumInput s) (minimumInput s)
    (continuous s) (enabled s) (prevError s) v (buf s) (setpoint s)
    (prevSetpoint s) (error s) (result s) (setpointTimer s)
    (onTarget_attr s).

Definition set_buf (v : deque) (s : PIDController) : PIDController :=
  mkPID (P s) (I s) (D s) (F s) (pidOutput s) (pidInput s) (period s)
    (maximumOutput s) (minimumOutput s) (maximumInput s) (minimumInput s)
    (continuous s) (enabled s) (prevError s) (totalError s) v (setpoint s)
    (prevSetpoint s) (error s) (result s) (setpointTimer s)
    (onTarget_attr s).

Definition set_setpoint (v : Q) (s : PIDController) : PIDController :=
  mkPID (P s) (I s) (D s) (F s) (pidOutput s) (pidInput s) (period s)
    (maximumOutput s) (minimumOutput s) (maximumInput s) (minimumInput s)
    (continuous s) (enabled s) (prevError s) (totalError s) (buf s) v
    (prevSetpoint s) (error s) (result s) (setpointTimer s)
    (onTarget_attr s).

Definition set_prevSetpoint (v : Q) (s : PIDController) : PIDController :=
  mkPID (P s) (I s) (D s) (F s) (pidOutput s) (pidInput s) (period s)
    (maximumOutput s) (minimumOutput s) (maximumInput s) (minimumInput s)
    (continuous s) (enabled s) (prevError s) (totalError s) (buf s)
    (setpoint s) v (error s) (result s) (setpointTimer s) (onTarget_attr s).

Definition set_error (v : Q) (s : PIDController) : PIDController :=
  mkPID (P s) (I s) (D s) (F s) (pidOutput s) (pidInput s) (period s)
    (maximumOutput s) (minimumOutput s) (maximumInput s) (minimumInput s)
    (continuous s) (enabled s) (prevError s) (totalError s) (buf s)
    (setpoint s) (prevSetpoint s) v (result s) (setpointTimer s)
    (onTarget_attr s).

Definition set_result (v : Q) (s : PIDController) : PIDController :=
  mkPID (P s) (I s) (D s) (F s) (pidOutput s) (pidInput s) (period s)
    (maximumOutput s) (minimumOutput s) (maximumInput s) (minimumInput s)
    (continuous s) (enabled s) (prevError s) (totalError s) (buf s)
    (setpoint s) (prevSetpoint s) (error s) v (setpointTimer s)
    (onTarget_attr s).

Definition set_setpointTimer (v : Timer) (s : PIDController)
  : PIDController :=
  mkPID (P s) (I s) (D s) (F s) (pidOutput s) (pidInput s) (period s)
    (maximumOutput s) (minimumOutput s) (maximumInput s) (minimumInput s)
    (continuous s) (enabled s) (prevError s) (totalError s) (buf s)
    (setpoint s) (prevSetpoint s) (error s) (result s) v (onTarget_attr s).

Definition set_onTarget_attr (v : option Tolerance) (s : PIDController)
  : PIDController :=
  mkPID (P s) (I s) (D s) (F s) (pidOutput s) (pidInput s) (period s)
    (maximumOutput s) (minimumOutput s) (maximumInput s) (minimumInput s)
    (continuous s) (enabled s) (prevError s) (totalError s) (buf s)
    (setpoint s) (prevSetpoint s) (error s) (result s) (setpointTimer s) v.

(** ** Outcomes of a method call *)

Inductive Exn : Type :=
| ValueError (msg : string)
| TypeError
| AttributeError.

Inductive Outcome (A : Type) : Type :=
| Return (a : A)
| Raise (e : Exn).
Arguments Return {A} a.
Arguments Raise {A} e.

(** A method: it runs on the controller and leaves a controller behind,
    also when it raises. *)
Definition M (A : Type) : Type := PIDController -> Outcome A * PIDController.

Definition ret {A} (a : A) : M A := fun self => (Return a, self).

Definition raise {A} (e : Exn) : M A := fun self => (Raise e, self).

Definition bind {A B} (m : M A) (k : A -> M B) : M B :=
  fun self =>
    match m self with
    | (Return a, self') => k a self'
    | (Raise e, self') => (Raise e, self')
    end.

(** Read an expression over [self]. *)
Definition read {A} (f : PIDController -> A) : M A :=
  fun self => (Return (f self), self).

(** Assign attributes of [self]. *)
Definition assign (f : PIDController -> PIDController) : M unit :=
  fun self => (Return tt, f self).

Declare Scope pid_scope.
Delimit Scope pid_scope with pid.
Notation "x <- m ;; k" := (bind m (fun x => k))
  (at level 61, m at next level, right associativity) : pid_scope.
Notation "m ;; k" := (bind m (fun _ => k))
  (at level 61, right associativity) : pid_scope.
Local Open Scope pid_scope.

(** The controller a call leaves behind, and what it returned. *)
Definition after {A} (m : M A) (self : PIDController) : PIDController :=
  snd (m self).

Definition outcome {A} (m : M A) (self : PIDController) : Outcome A :=
  fst (m self).

(** ** Methods of PIDController *)

(** [clamp(value, low, high)]: [max(low, min(value, high))]. *)
Definition clamp (value low high : Q) : Q :=
  py_max low (py_min value high).

(** [getContinuousError(error)]: reads three attributes, assigns none. *)
Definition getContinuousError (self : PIDController) (error : Q) : Q :=
  if continuous self
     && Qgtb (Qabs error) ((maximumInput self - minimumInput self) / 2)
  then
    if Qgtb error 0
    then error - (maximumInput self - minimumInput self)
    else error + (maximumInput self - minimumInput self)
  else error.

Definition getSetpoint (self : PIDController) : Q := setpoint self.

(** [getDeltaSetpoint()]: the timer is read at clock reading [now]. *)
Definition getDeltaSetpoint (now : Q) (self : PIDController) : Q :=
  let t := Timer_get now (setpointTimer self) in
  if nonzero t
  then (setpoint self - prevSetpoint self) / t
  else 0.

(** [self.pidInput.getPIDSourceType()]; the attribute access fails on
    [None], which is what [free] leaves in [pidInput]. *)
Definition inputSourceType : M PIDSourceType :=
  src <- read pidInput ;;
  match src with
  | Some pidInput_ => ret (getPIDSourceType pidInput_)
  | None => raise AttributeError
  end.

Definition calculateFeedForward (now : Q) : M Q :=
  ty <- inputSourceType ;;
  if PIDSourceType_eqb ty kRate
  then read (fun self => F self * getSetpoint self)
  else
    temp <- read (fun self => F self * getDeltaSetpoint now self) ;;
    assign (fun self => set_prevSetpoint (setpoint self) self) ;;
    assign (fun self =>
              set_setpointTimer (Timer_reset now (setpointTimer self)) self) ;;
    ret temp.

(** The part of [_calculate] that runs when the controller is enabled, up
    to and including [self.prevError = self.error]: [self.result] then
    holds the sum of the terms, not yet clamped to the output range. *)
Definition calculate_terms (input now : Q) : M unit :=
  assign (fun self =>
            set_error (getContinuousError self (setpoint self - input)) self) ;;
  ty <- inputSourceType ;;
  (if PIDSourceType_eqb ty kRate
   then
     (p <- read P ;;
      if nonzero p
      then assign (fun self =>
                     set_totalError
                       (clamp (totalError self + error self)
                              (minimumOutput self / P self)
                              (maximumOutput self / P self)) self)
      else ret tt) ;;
     lhs <- read (fun self =>
                    P self * totalError self + D self * error self) ;;
     ff <- calculateFeedForward now ;;
     assign (set_result (lhs + ff))
   else
     (i <- read I ;;
      if nonzero i
      then assign (fun self =>
                     set_totalError
                       (clamp (totalError self + error self)
                              (minimumOutput self / I self)
                              (maximumOutput self / I self)) self)
      else ret tt) ;;
     lhs <- read (fun self =>
                    P self * error self + I self * totalError self
                    + D self * (error self - prevError self)) ;;
     ff <- calculateFeedForward now ;;
     assign (set_result (lhs + ff))) ;;
  assign (fun self => set_prevError (error self) self).

(** [self.pidOutput(v)]: the sink receives [v].  Calling [None], which is
    what [free] leaves in [pidOutput], is a TypeError. *)
Definition call_pidOutput (v : Q) : M unit :=
  out <- read pidOutput ;;
  match out with
  | Some pidOutput_ => assign (set_pidOutput (Some (pidWrite v pidOutput_)))
  | None => raise TypeError
  end.

(** [_calculate()], one tick of the periodic task.  [input] is what
    [pidInput.pidGet()] returns on this tick and [now] the clock reading.
    The local [pidOutput] is the sink [self.pidOutput] refers to; it is
    called last, with the clamped result. *)
Definition _calculate (input now : Q) : M unit :=
  src <- read pidInput ;;
  match src with
  | None => ret tt
  | Some _ =>
    out <- read pidOutput ;;
    match out with
    | None => ret tt
    | Some _ =>
      enabled_ <- read enabled ;;
      if enabled_ : bool
      then
        calculate_terms input now ;;
        assign (fun self =>
                  set_result (clamp (result self) (minimumOutput self)
                                    (maximumOutput self)) self) ;;
        result_ <- read result ;;
        assign (fun self =>
                  set_buf (deque_append (error self) (buf self)) self) ;;
        call_pidOutput result_
      else ret tt
    end
  end.

Definition setPID (p i d f : Q) : M unit :=
  assign (fun self => set_F f (set_D d (set_I i (set_P p self)))).

Definition setContinuous (c : bool) : M unit :=
  assign (set_continuous c).

Definition setSetpoint (setpoint_ : Q) : M unit :=
  newsetpoint <-
    read (fun self =>
            if Qgtb (maximumInput self) (minimumInput self)
            then
              if Qgtb setpoint_ (maximumInput self) then maximumInput self
              else if Qltb setpoint_ (minimumInput self) then minimumInput self
              else setpoint_
            else setpoint_) ;;
  assign (set_setpoint newsetpoint) ;;
  assign (fun self => set_buf (deque_clear (buf self)) self) ;;
  assign (set_totalError 0).

Definition setInputRange (minimumInput_ maximumInput_ : Q) : M unit :=
  if Qgtb minimumInput_ maximumInput_
  then raise (ValueError "Lower bound is greater than upper bound")
  else
    assign (set_minimumInput minimumInput_) ;;
    assign (set_maximumInput maximumInput_) ;;
    sp <- read setpoint ;;
    setSetpoint sp.

Definition setOutputRange (minimumOutput_ maximumOutput_ : Q) : M unit :=
  if Qgtb minimumOutput_ maximumOutput_
  then raise (ValueError "Lower bound is greater than upper bound")
  else
    assign (set_minimumOutput minimumOutput_) ;;
    assign (set_maximumOutput maximumOutput_).

(** [getAvgError()]: [0] on an empty buffer, else [sum(self.buf) / l]. *)
Definition getAvgError (self : PIDController) : Q :=
  let l := List.length (items (buf self)) in
  if Nat.eqb l 0 then 0
  else py_sum (items (buf self)) / inject_Z (Z.of_nat l).

(** [isAvgErrorValid()]: [len(self.buf) != 0]. *)
Definition isAvgErrorValid (self : PIDController) : bool :=
  negb (Nat.eqb (List.length (items (buf self))) 0).

Definition PercentageTolerance_onTarget (self : PIDController)
    (percentage : Q) : bool :=
  isAvgErrorValid self
  && Qltb (Qabs (getAvgError self))
          (percentage / 100 * (maximumInput self - minimumInput self)).

Definition AbsoluteTolerance_onTarget (self : PIDController) (value : Q)
  : bool :=
  isAvgErrorValid self && Qltb (Qabs (getAvgError self)) value.

Definition setAbsoluteTolerance (absvalue : Q) : M unit :=
  assign (set_onTarget_attr (Some (AbsoluteTolerance absvalue))).

Definition setPercentTolerance (percentage : Q) : M unit :=
  assign (set_onTarget_attr (Some (PercentageTolerance percentage))).

(** [self.onTarget()]: the closure an earlier [set...Tolerance] stored on
    the instance, else the method of the class, which raises. *)
Definition onTarget : M bool :=
  tol <- read onTarget_attr ;;
  match tol with
  | Some (AbsoluteTolerance absvalue) =>
      read (fun self => AbsoluteTolerance_onTarget self absvalue)
  | Some (PercentageTolerance percentage) =>
      read (fun self => PercentageTolerance_onTarget self percentage)
  | None =>
      raise (ValueError
               "No tolerance value set when using PIDController.onTarget()")
  end.

(** [sys.maxsize], on a 64-bit interpreter. *)
Definition sys_maxsize : Z := 2 ^ 63 - 1.

(** [setToleranceBuffer(bufLength)].  [islice] refuses a stop that is
    negative or above [sys.maxsize] with a ValueError, before anything
    is assigned. *)
Definition setToleranceBuffer (bufLength : Z) : M unit :=
  if ((bufLength <? 0) || (sys_maxsize <? bufLength))%Z
  then raise (ValueError "Stop argument for islice() must be None or an integer: 0 <= x <= sys.maxsize.")
  else
    let n := Z.to_nat bufLength in
    assign (fun self => set_buf (deque_new (islice (buf self) n) n) self).

Definition enable : M unit := assign (set_enabled true).

(** [disable()]: [self.pidOutput(0)], then [self.enabled = False]. *)
Definition disable : M unit :=
  call_pidOutput 0 ;;
  assign (set_enabled false).

Definition isEnabled (self : PIDController) : bool := enabled self.

Definition reset : M unit :=
  disable ;;
  assign (set_prevError 0) ;;
  assign (set_totalError 0) ;;
  assign (set_result 0).

(** [free()], without the task and the listeners. *)
Definition free : M unit :=
  assign (set_pidInput None) ;;
  assign (set_pidOutput None).

(** The attributes [__init__] assigns, for gains [Kp Ki Kd Kf], a source
    of type [ty], a sink with history [log], a period and the clock
    reading [now] at which the setpoint timer starts. *)
Definition init (Kp Ki Kd Kf : Q) (ty : PIDSourceType) (log : list Q)
    (period_ now : Q) : PIDController :=
  {| P := Kp; I := Ki; D := Kd; F := Kf;
     pidOutput := Some (mkOutput log);
     pidInput := Some (mkSource ty);
     period := period_;
     maximumOutput := 1; minimumOutput := -1;
     maximumInput := 0; minimumInput := 0;
     continuous := false; enabled := false;
     prevError := 0; totalError := 0;
     buf := deque_new [] 1;
     setpoint := 0; prevSetpoint := 0;
     error := 0; result := 0;
     setpointTimer := mkTimer now;
     onTarget_attr := None |}.

(** ** Controllers used as examples *)

(** A controller as constructed: P = 1, displacement input. *)
Definition fresh : PIDController :=
  init 1 0 0 0 kDisplacement [] (1 # 20) 0.

(** A controller in rate mode with P = 0, enabled, with setpoint 1. *)
Definition rate_zero_P : PIDController :=
  set_enabled true (set_setpoint 1 (init 0 0 0 0 kRate [] (1 # 20) 0)).

Definition rate_zero_P_after : PIDController :=
  after (_calculate 0 0) rate_zero_P.

(** The first tick of P = 1, displacement input 0, setpoint 10, output
    range [-1, 1]. *)
Definition first_tick : PIDController :=
  after enable (after (setSetpoint 10) fresh).

(** An absolute encoder: continuous input on the range [0, 360]. *)
Definition encoder : PIDController :=
  set_continuous true (set_maximumInput 360 fresh).

(** Three samples, appended in the order 1, 2, 3, in a buffer of
    capacity 3. *)
Definition three_samples : PIDController :=
  set_buf (deque_append 3 (deque_append 2 (deque_append 1 (deque_new [] 3))))
    fresh.

(** One sample 0.3 in the buffer. *)
Definition near_target : PIDController :=
  set_buf (deque_append (3 # 10) (deque_new [] 1)) fresh.

(** The setpoint moved from 0 to 10 two time units ago; F = 3. *)
Definition moving : PIDController :=
  set_setpoint 10 (init 1 0 0 3 kDisplacement [] (1 # 20) 0).

(** The input range [0, 100] with the setpoint at 20. *)
Definition ranged : PIDController :=
  after (setSetpoint 20) (after (setInputRange 0 100) fresh).

(** The first tick already ran: enabled, one sample, one value written. *)
Definition running : PIDController := after (_calculate 0 1) first_tick.

(** The range [0, 100], setpoint 20, after three ticks' worth of
    samples. *)
Definition ranged_with_history : PIDController :=
  set_totalError 6 (set_buf (buf three_samples) ranged).

(** ** The remaining methods of PIDController *)

Definition getP (self : PIDController) : Q := P self.
Definition getI (self : PIDController) : Q := I self.
Definition getD (self : PIDController) : Q := D self.
Definition getF (self : PIDController) : Q := F self.

(** [get()]: the latest result. *)
Definition get (self : PIDController) : Q := result self.

(** [getError()]: [input] is what [self.pidInput.pidGet()] returns; the
    attribute access fails on a freed controller. *)
Definition getError (input : Q) : M Q :=
  sp <- read getSetpoint ;;
  src <- read pidInput ;;
  match src with
  | Some _ => read (fun self => getContinuousError self (sp - input))
  | None => raise AttributeError
  end.

(** The listeners a table calls; [entry], [key] and [param] are not
    used by them. *)
Definition pChanged (value : Q) : M unit := assign (set_P value).
Definition iChanged (value : Q) : M unit := assign (set_I value).
Definition dChanged (value : Q) : M unit := assign (set_D value).
Definition fChanged (value : Q) : M unit := assign (set_F value).

Definition setpointChanged (value : Q) : M unit :=
  sp <- read getSetpoint ;;
  if negb (Qeq_bool sp value) then setSetpoint value else ret tt.

Definition enabledChanged (value : bool) : M unit :=
  en <- read isEnabled ;;
  if negb (Bool.eqb en value)
  then if value then enable else disable
  else ret tt.

Definition startLiveWindowMode : M unit := disable.

Definition stopLiveWindowMode : M unit := ret tt.

(** ** Sequences of calls *)

(** One call on the controller from outside: the periodic task's tick or
    a method of the public interface, with its arguments. *)
Inductive Call : Type :=
| Call_calculate (input now : Q)
| Call_calculateFeedForward (now : Q)
| Call_setPID (p i d f : Q)
| Call_setContinuous (c : bool)
| Call_setInputRange (minimumInput_ maximumInput_ : Q)
| Call_setOutputRange (minimumOutput_ maximumOutput_ : Q)
| Call_setSetpoint (setpoint_ : Q)
| Call_getError (input : Q)
| Call_setAbsoluteTolerance (absvalue : Q)
| Call_setPercentTolerance (percentage : Q)
| Call_setToleranceBuffer (bufLength : Z)
| Call_onTarget
| Call_enable
| Call_disable
| Call_reset
| Call_free
| Call_pChanged (value : Q)
| Call_iChanged (value : Q)
| Call_dChanged (value : Q)
| Call_fChanged (value : Q)
| Call_setpointChanged (value : Q)
| Call_enabledChanged (value : bool)
| Call_startLiveWindowMode
| Call_stopLiveWindowMode.

(** The controller after a call; an exception goes to the caller and
    the controller stays as the method left it. *)
Definition call (c : Call) (self : PIDController) : PIDController :=
  match c with
  | Call_calculate input now => after (_calculate input now) self
  | Call_calculateFeedForward now => after (calculateFeedForward now) self
  | Call_setPID p i d f => after (setPID p i d f) self
  | Call_setContinuous c => after (setContinuous c) self
  | Call_setInputRange lo hi => after (setInputRange lo hi) self
  | Call_setOutputRange lo hi => after (setOutputRange lo hi) self
  | Call_setSetpoint v => after (setSetpoint v) self
  | Call_getError input => after (getError input) self
  | Call_setAbsoluteTolerance v => after (setAbsoluteTolerance v) self
  | Call_setPercentTolerance p => after (setPercentTolerance p) self
  | Call_setToleranceBuffer n => after (setToleranceBuffer n) self
  | Call_onTarget => after onTarget self
  | Call_enable => after enable self
  | Call_disable => after disable self
  | Call_reset => after reset self
  | Call_free => after free self
  | Call_pChanged v => after (pChanged v) self
  | Call_iChanged v => after (iChanged v) self
  | Call_dChanged v => after (dChanged v) self
  | Call_fChanged v => after (fChanged v) self
  | Call_setpointChanged v => after (setpointChanged v) self
  | Call_enabledChanged v => after (enabledChanged v) self
  | Call_startLiveWindowMode => after startLiveWindowMode self
  | Call_stopLiveWindowMode => after stopLiveWindowMode self
  end.

(** The calls of a list, first to last. *)
Definition calls (cs : list Call) (self : PIDController) : PIDController :=
  fold_left (fun s c => call c s) cs self.

(** What every controller reached from the constructor satisfies: the
    bounds are ordered, the buffer is within its capacity and the
    setpoint is inside an input range of positive width. *)
Definition well_formed (self : PIDController) : Prop :=
  minimumInput self <= maximumInput self /\
  minimumOutput self <= maximumOutput self /\
  (List.length (items (buf self)) <= maxlen (buf self))%nat /\
  (minimumInput self < maximumInput self ->
   minimumInput self <= setpoint self <= maximumInput self).

(** ** The tolerance test on binary64 numbers *)

Module Float64.

(** Python's [float]. *)
Definition float : Set := PrimFloat.float.

(** The float of a non-negative [int]; exact below 2^53. *)
Fixpoint float_of_nat (n : nat) : float :=
  match n with
  | O => PrimFloat.zero
  | S k => PrimFloat.add (float_of_nat k) PrimFloat.one
  end.

(** The float a decimal literal [n / d] denotes, for small [n] and [d]:
    the division rounds to the nearest float, as the literal does. *)
Definition decimal (n d : nat) : float :=
  PrimFloat.div (float_of_nat n) (float_of_nat d).

(** Built-in [sum] on floats: a left fold starting at [0]. *)
Definition py_sum (l : list float) : float :=
  fold_left PrimFloat.add l PrimFloat.zero.

Record deque : Type := mkDeque { items : list float; maxlen : nat }.

Inductive Tolerance : Type :=
| AbsoluteTolerance (value : float)
| PercentageTolerance (percentage : float).

(** The attributes that [onTarget] and the two tolerance setters read or
    assign; the other attributes of the controller play no part in
    them. *)
Record PIDController : Type := mkPID {
  maximumInput : float;
  minimumInput : float;
  buf : deque;
  onTarget_attr : option Tolerance
}.

(** [getAvgError()]: [0] on an empty buffer, else [sum(self.buf) / l]. *)
Definition getAvgError (self : PIDController) : float :=
  let l := List.length (items (buf self)) in
  if Nat.eqb l 0 then PrimFloat.zero
  else PrimFloat.div (py_sum (items (buf self))) (float_of_nat l).

(** [isAvgErrorValid()]: [len(self.buf) != 0]. *)
Definition isAvgErrorValid (self : PIDController) : bool :=
  negb (Nat.eqb (List.length (items (buf self))) 0).

(** [percentage / 100.0 * (self.maximumInput - self.minimumInput)], left
    to right. *)
Definition PercentageTolerance_onTarget (self : PIDController)
    (percentage : float) : bool :=
  isAvgErrorValid self
  && PrimFloat.ltb (PrimFloat.abs (getAvgError self))
       (PrimFloat.mul (PrimFloat.div percentage (float_of_nat 100))
          (PrimFloat.sub (maximumInput self) (minimumInput self))).

Definition AbsoluteTolerance_onTarget (self : PIDController) (value : float)
  : bool :=
  isAvgErrorValid self && PrimFloat.ltb (PrimFloat.abs (getAvgError self)) value.

Definition setAbsoluteTolerance (absvalue : float) (self : PIDController)
  : PIDController :=
  {| maximumInput := maximumInput self; minimumInput := minimumInput self;
     buf := buf self;
     onTarget_attr := Some (AbsoluteTolerance absvalue) |}.

Definition setPercentTolerance (percentage : float) (self : PIDController)
  : PIDController :=
  {| maximumInput := maximumInput self; minimumInput := minimumInput self;
     buf := buf self;
     onTarget_attr := Some (PercentageTolerance percentage) |}.

(** [self.onTarget()]: the installed closure, else the method of the
    class, which raises.  It assigns nothing. *)
Definition onTarget (self : PIDController) : Outcome bool :=
  match onTarget_attr self with
  | Some (AbsoluteTolerance absvalue) =>
      Return (AbsoluteTolerance_onTarget self absvalue)
  | Some (PercentageTolerance percentage) =>
      Return (PercentageTolerance_onTarget self percentage)
  | None =>
      Raise (ValueError
               "No tolerance value set when using PIDController.onTarget()")
  end.

(** The average of the samples, as [getAvgError] computes it on a
    buffer that is not empty. *)
Definition average (l : list float) : float :=
  PrimFloat.div (py_sum l) (float_of_nat (List.length l)).

(** A controller with the input range [lo, hi] and the given samples,
    oldest first, in a buffer of their number. *)
Definition with_samples (lo hi : nat) (samples : list float)
  : PIDController :=
  {| maximumInput := float_of_nat hi; minimumInput := float_of_nat lo;
     buf := mkDeque samples (List.length samples);
     onTarget_attr := None |}.

End Float64.

(** ** GyroBase (wpilib/gyrobase.py) *)

Module GyroBase.

(** A Python value where a source type is expected: one equal to a
    member of [PIDSourceType], or any other object. *)
Inductive PyValue : Type :=
| Member (t : PIDSourceType)
| Other.

Inductive GyroExn : Type :=
| GyroValueError (msg : string)
| NotImplementedError.

Inductive Result (A : Type) : Type :=
| Returns (a : A)
| Raises (e : GyroExn).
Arguments Returns {A} a.
Arguments Raises {A} e.

(** The attribute [self.pidSource]; [self.valueEntry] is [None]
    without a table. *)
Record GyroBase : Type := mkGyro { pidSource : PyValue }.

(** [__init__] *)
Definition init : GyroBase := {| pidSource := Member kDisplacement |}.

(** [getAngle()] and [getRate()] of the base class. *)
Definition getAngle : Result Q := Raises NotImplementedError.
Definition getRate : Result Q := Raises NotImplementedError.

Definition setPIDSourceType (pidSource_ : PyValue) (self : GyroBase)
  : Result unit * GyroBase :=
  match pidSource_ with
  | Member _ => (Returns tt, {| pidSource := pidSource_ |})
  | Other => (Raises (GyroValueError "Must be kRate or kDisplacement"), self)
  end.

Definition getPIDSourceType (self : GyroBase) : PyValue := pidSource self.

(** [pidGet()], for a class whose [getRate()] and [getAngle()] have the
    given results; only the one selected is called. *)
Definition pidGet (getRate_ getAngle_ : Result Q) (self : GyroBase)
  : Result Q :=
  match pidSource self with
  | Member kRate => getRate_
  | Member kDisplacement => getAngle_
  | Other => Returns 0
  end.

(** The gyro after a list of [setPIDSourceType] calls. *)
Definition setPIDSourceTypes (vs : list PyValue) (self : GyroBase)
  : GyroBase :=
  fold_left (fun g v => snd (setPIDSourceType v g)) vs self.

End GyroBase.

(** ** More controllers used as examples *)

(** P = I = 1, displacement input, setpoint 10, enabled. *)
Definition integrating : PIDController :=
  after enable
    (after (setSetpoint 10) (init 1 1 0 0 kDisplacement [] (1 # 20) 0)).

(** * Properties *)

(** ** The comparisons and [clamp] *)

Lemma Qgtb_true (a b : Q) : Qgtb a b = true <-> b < a.
Proof.
  unfold Qgtb. rewrite (Qgt_alt a b).
  destruct (a ?= b); split; intros H; congruence.
Qed.

Lemma Qgtb_false (a b : Q) : Qgtb a b = false <-> a <= b.
Proof.
  split; intros H.
  - apply Qnot_lt_le. intros L. apply Qgtb_true in L. congruence.
  - destruct (Qgtb a b) eqn:E; [|reflexivity].
    apply Qgtb_true in E. exfalso. exact (Qlt_not_le _ _ E H).
Qed.

Lemma Qltb_true (a b : Q) : Qltb a b = true <-> a < b.
Proof.
  unfold Qltb. rewrite (Qlt_alt a b).
  destruct (a ?= b); split; intros H; congruence.
Qed.

Lemma Qltb_false (a b : Q) : Qltb a b = false <-> b <= a.
Proof.
  split; intros H.
  - apply Qnot_lt_le. intros L. apply Qltb_true in L. congruence.
  - destruct (Qltb a b) eqn:E; [|reflexivity].
    apply Qltb_true in E. exfalso. exact (Qlt_not_le _ _ E H).
Qed.

Lemma nonzero_true (x : Q) : nonzero x = true <-> ~ x == 0.
Proof.
  unfold nonzero. rewrite negb_true_iff. split; intros H.
  - now apply Qeq_bool_neq.
  - destruct (Qeq_bool x 0) eqn:E; [|reflexivity].
    apply Qeq_bool_iff in E. contradiction.
Qed.

Lemma nonzero_false (x : Q) : nonzero x = false <-> x == 0.
Proof.
  unfold nonzero. rewrite negb_false_iff. apply Qeq_bool_iff.
Qed.

(** Case analysis on a comparison, leaving its meaning as a hypothesis. *)
Ltac case_cmp :=
  match goal with
  | |- context [Qltb ?a ?b] =>
      let E := fresh "E" in
      destruct (Qltb a b) eqn:E;
      [apply Qltb_true in E | apply Qltb_false in E]
  | |- context [Qgtb ?a ?b] =>
      let E := fresh "E" in
      destruct (Qgtb a b) eqn:E;
      [apply Qgtb_true in E | apply Qgtb_false in E]
  | |- context [nonzero ?a] =>
      let E := fresh "E" in
      destruct (nonzero a) eqn:E;
      [apply nonzero_true in E | apply nonzero_false in E]
  end.

Lemma py_min_le_r (a b : Q) : py_min a b <= b.
Proof. unfold py_min. case_cmp; lra. Qed.

Lemma py_max_ge_l (a b : Q) : a <= py_max a b.
Proof. unfold py_max. case_cmp; lra. Qed.

Lemma py_max_le (a b c : Q) : a <= c -> b <= c -> py_max a b <= c.
Proof. unfold py_max. intros. case_cmp; lra. Qed.

(** With ordered bounds, [clamp] lands between them. *)
Lemma clamp_in_range (value low high : Q) :
  low <= high -> low <= clamp value low high <= high.
Proof.
  intros H. unfold clamp. split.
  - apply py_max_ge_l.
  - apply py_max_le; [exact H | apply py_min_le_r].
Qed.

(** A value already between the bounds is returned, up to the equality
    of rationals ([max] returns its first argument on a tie). *)
Lemma clamp_inside (value low high : Q) :
  low <= value <= high -> clamp value low high == value.
Proof.
  intros [H1 H2]. unfold clamp, py_max, py_min.
  repeat case_cmp; lra.
Qed.

(** ** Running a method *)

(** Unfold the monad, the attribute access and the straight-line methods;
    arithmetic, [clamp] and [getContinuousError] stay folded. *)
Ltac run_in H :=
  cbv beta iota zeta delta
    [after outcome bind ret raise read assign fst snd
     _calculate calculate_terms calculateFeedForward inputSourceType
     call_pidOutput
     getPIDSourceType getSetpoint getDeltaSetpoint Timer_get Timer_reset
     PIDSourceType_eqb setSetpoint setInputRange setOutputRange
     setAbsoluteTolerance setPercentTolerance onTarget setToleranceBuffer
     enable disable reset free isEnabled setPID setContinuous
     P I D F pidOutput pidInput period maximumOutput minimumOutput
     maximumInput minimumInput continuous enabled prevError totalError buf
     setpoint prevSetpoint error result setpointTimer onTarget_attr
     pidSource startTime
     set_P set_I set_D set_F set_pidOutput set_pidInput set_maximumOutput
     set_minimumOutput set_maximumInput set_minimumInput set_continuous
     set_enabled set_prevError set_totalError set_buf set_setpoint
     set_prevSetpoint set_error set_result set_setpointTimer
     set_onTarget_attr] in H.

Ltac run :=
  cbv beta iota zeta delta
    [after outcome bind ret raise read assign fst snd
     _calculate calculate_terms calculateFeedForward inputSourceType
     call_pidOutput
     getPIDSourceType getSetpoint getDeltaSetpoint Timer_get Timer_reset
     PIDSourceType_eqb setSetpoint setInputRange setOutputRange
     setAbsoluteTolerance setPercentTolerance onTarget setToleranceBuffer
     enable disable reset free isEnabled setPID setContinuous
     P I D F pidOutput pidInput period maximumOutput minimumOutput
     maximumInput minimumInput continuous enabled prevError totalError buf
     setpoint prevSetpoint error result setpointTimer onTarget_attr
     pidSource startTime
     set_P set_I set_D set_F set_pidOutput set_pidInput set_maximumOutput
     set_minimumOutput set_maximumInput set_minimumInput set_continuous
     set_enabled set_prevError set_totalError set_buf set_setpoint
     set_prevSetpoint set_error set_result set_setpointTimer
     set_onTarget_attr].

(** An enabled controller with source and sink attached, taken apart into
    its attributes. *)
Ltac attached self src out He Hi Ho :=
  destruct self; run_in He; run_in Hi; run_in Ho; subst;
  destruct src as [[|]].

(** ** The compute step *)

(** The tick of an enabled, attached controller in one equation: the
    terms, then the clamp, the sample and the write. *)
Lemma calculate_enabled (self : PIDController) src out (input now : Q) :
  enabled self = true ->
  pidInput self = Some src ->
  pidOutput self = Some out ->
  let mid := after (calculate_terms input now) self in
  let r := clamp (result mid) (minimumOutput mid) (maximumOutput mid) in
  _calculate input now self =
  (Return tt,
   set_pidOutput (Some (pidWrite r out))
     (set_buf (deque_append (error mid) (buf mid)) (set_result r mid))).
Proof.
  intros He Hi Ho. attached self src out He Hi Ho; run;
    repeat case_cmp; reflexivity.
Qed.

(** The terms leave the output range, the sink and the buffer alone. *)
Lemma calculate_terms_frame (self : PIDController) src (input now : Q) :
  pidInput self = Some src ->
  let mid := after (calculate_terms input now) self in
  minimumOutput mid = minimumOutput self /\
  maximumOutput mid = maximumOutput self /\
  pidOutput mid = pidOutput self /\
  buf mid = buf self /\
  error mid = getContinuousError self (setpoint self - input).
Proof.
  intros Hi. destruct self; run_in Hi; subst; destruct src as [[|]]; run;
    repeat case_cmp; repeat split; reflexivity.
Qed.

(** Feed-forward does not depend on the error or on the accumulator: its
    value during the tick is its value on the controller before the
    tick. *)
Lemma calculateFeedForward_value (self : PIDController) src (now : Q) :
  pidInput self = Some src ->
  outcome (calculateFeedForward now) self =
  Return (match getPIDSourceType src with
          | kRate => F self * getSetpoint self
          | kDisplacement => F self * getDeltaSetpoint now self
          end).
Proof.
  intros Hi. destruct self; run_in Hi; subst; destruct src as [[|]]; run;
    reflexivity.
Qed.

(** C1, as stated, fails: in rate mode with P = 0 the tick reads the
    error 1 and leaves the accumulator at 0; it does not add the error
    to it. *)
Lemma calculate_rate_zero_P_counterexample :
  enabled rate_zero_P = true /\
  pidInput rate_zero_P = Some (mkSource kRate) /\
  pidOutput rate_zero_P = Some (mkOutput []) /\
  P rate_zero_P == 0 /\
  error rate_zero_P_after == 1 /\
  totalError rate_zero_P_after = totalError rate_zero_P /\
  ~ totalError rate_zero_P_after
    == totalError rate_zero_P + error rate_zero_P_after.
Proof.
  vm_compute. repeat split; try reflexivity; discriminate.
Qed.

(** C1, amended: on a tick of an enabled controller with source and sink
    attached, the error is the wrap-corrected [setpoint - input] and the
    stored result is the clamp of the sum of the terms.  Rate input: when
    P <> 0 the accumulator becomes [clamp (totalError + error)] between
    [minimumOutput / P] and [maximumOutput / P], when P = 0 the
    accumulator is left as it was, and the sum is
    [P * totalError + D * error + feedForward].  Displacement input: the
    same with I for the accumulator, and the sum is
    [P * error + I * totalError + D * (error - prevError) + feedForward]. *)
Theorem calculate_terms_formula
    (self : PIDController) src out (input now : Q) :
  enabled self = true ->
  pidInput self = Some src ->
  pidOutput self = Some out ->
  let self' := after (_calculate input now) self in
  let raw := result (after (calculate_terms input now) self) in
  let e := getContinuousError self (setpoint self - input) in
  exists ff,
    outcome (calculateFeedForward now) self = Return ff /\
    error self' = e /\
    result self' = clamp raw (minimumOutput self) (maximumOutput self) /\
    match getPIDSourceType src with
    | kRate =>
        (~ P self == 0 ->
         totalError self' =
         clamp (totalError self + e)
               (minimumOutput self / P self) (maximumOutput self / P self)) /\
        (P self == 0 -> totalError self' = totalError self) /\
        raw = P self * totalError self' + D self * e + ff
    | kDisplacement =>
        (~ I self == 0 ->
         totalError self' =
         clamp (totalError self + e)
               (minimumOutput self / I self) (maximumOutput self / I self)) /\
        (I self == 0 -> totalError self' = totalError self) /\
        raw = P self * e + I self * totalError self'
              + D self * (e - prevError self) + ff
    end.
Proof.
  intros He Hi Ho self' raw e.
  eexists. split; [exact (calculateFeedForward_value self src now Hi)|].
  subst self' raw e.
  attached self src out He Hi Ho; run;
    case_cmp; repeat split; try reflexivity; intros; contradiction.
Qed.

Lemma calculate_terms_formula_witness :
  error (after (_calculate 0 1) first_tick)
  = getContinuousError first_tick (setpoint first_tick - 0).
Proof.
  destruct (calculate_terms_formula first_tick (mkSource kDisplacement)
              (mkOutput []) 0 1 eq_refl eq_refl eq_refl)
    as [ff [_ [H _]]].
  exact H.
Defined.

(** C2: with [minimumOutput <= maximumOutput], a tick of an enabled
    controller with source and sink attached returns normally, writes one
    value to the sink, that value is the stored result, and it lies
    between [minimumOutput] and [maximumOutput]. *)
Theorem calculate_output_in_range
    (self : PIDController) src out (input now : Q) :
  enabled self = true ->
  pidInput self = Some src ->
  pidOutput self = Some out ->
  minimumOutput self <= maximumOutput self ->
  let self' := after (_calculate input now) self in
  outcome (_calculate input now) self = Return tt /\
  pidOutput self' = Some (pidWrite (result self') out) /\
  minimumOutput self <= result self' <= maximumOutput self.
Proof.
  intros He Hi Ho Hb self'. subst self'. unfold after, outcome.
  rewrite (calculate_enabled self src out input now He Hi Ho).
  destruct (calculate_terms_frame self src input now Hi) as (Hmin & Hmax & _).
  cbn [fst snd]. rewrite Hmin, Hmax.
  split; [reflexivity|]. split; [reflexivity|].
  change (result (set_pidOutput ?o (set_buf ?b (set_result ?r ?m)))) with r.
  apply clamp_in_range. exact Hb.
Qed.

Lemma calculate_output_in_range_witness :
  minimumOutput first_tick <= result (after (_calculate 0 1) first_tick)
  <= maximumOutput first_tick.
Proof.
  apply (calculate_output_in_range first_tick (mkSource kDisplacement)
           (mkOutput []) 0 1 eq_refl eq_refl eq_refl).
  vm_compute. discriminate.
Defined.

(** End to end: P = 1, I = D = F = 0, displacement input fixed at 0,
    setpoint 10, output range [-1, 1]: the raw sum is 10 and the first
    value written is 1. *)
Example first_tick_output :
  result (after (calculate_terms 0 1) first_tick) == 10 /\
  result running = 1 /\
  pidOutput running = Some {| written := [1] |} /\
  items (buf running) = [10].
Proof. repeat split; reflexivity. Qed.

(** ** Continuous-error wrap *)

(** Division by the literal 2 as a multiplication, which linear
    arithmetic accepts. *)
Ltac halve :=
  repeat match goal with
         | |- context [?x / 2] => change (x / 2) with (x * (1 # 2))
         | H : context [?x / 2] |- _ =>
             change (x / 2) with (x * (1 # 2)) in H
         end.

Ltac qlra := halve; lra.

(** The wrapped error against the direct one, for a range of width
    [R >= 0] and an error beyond half of it. *)
Lemma wrap_shorter (e R : Q) :
  0 <= R -> R / 2 < Qabs e ->
  let w := if Qgtb e 0 then e - R else e + R in
  Qabs w <= Qabs e /\
  (0 < R -> Qabs w < Qabs e) /\
  (Qabs e <= R -> Qabs w <= R / 2).
Proof.
  intros HR. cbv zeta. case_cmp.
  - rewrite (Qabs_pos e) by qlra. intros H.
    repeat split; intros; apply Qabs_case; intros; qlra.
  - rewrite (Qabs_neg e) by qlra. intros H.
    repeat split; intros; apply Qabs_case; intros; qlra.
Qed.

(** C3: [getContinuousError] depends only on the error, the continuous
    flag and the input bounds; it returns the error when the flag is off;
    when the flag is on and [|error|] exceeds half the input range it
    returns [error - range] for a positive error and [error + range]
    otherwise, and that value is no longer than the error itself (strictly
    shorter on a range of positive width, and at most half the range when
    the error is within one range); on the range [0, 360] it maps 200 to
    -160, -200 to 160 and 100 to 100. *)
Theorem getContinuousError_spec :
  (forall s1 s2 e,
      continuous s1 = continuous s2 ->
      minimumInput s1 = minimumInput s2 ->
      maximumInput s1 = maximumInput s2 ->
      getContinuousError s1 e = getContinuousError s2 e) /\
  (forall s e, continuous s = false -> getContinuousError s e = e) /\
  (forall s e,
      continuous s = true ->
      (maximumInput s - minimumInput s) / 2 < Qabs e ->
      (0 < e ->
       getContinuousError s e = e - (maximumInput s - minimumInput s)) /\
      (~ 0 < e ->
       getContinuousError s e = e + (maximumInput s - minimumInput s)) /\
      (minimumInput s <= maximumInput s ->
       Qabs (getContinuousError s e) <= Qabs e /\
       (minimumInput s < maximumInput s ->
        Qabs (getContinuousError s e) < Qabs e) /\
       (Qabs e <= maximumInput s - minimumInput s ->
        Qabs (getContinuousError s e)
        <= (maximumInput s - minimumInput s) / 2))) /\
  (forall s e,
      continuous s = true ->
      Qabs e <= (maximumInput s - minimumInput s) / 2 ->
      getContinuousError s e = e) /\
  (forall s,
      continuous s = true ->
      minimumInput s == 0 -> maximumInput s == 360 ->
      getContinuousError s 200 == -160 /\
      getContinuousError s (-200) == 160 /\
      getContinuousError s 100 == 100).
Proof.
  split; [|split; [|split; [|split]]].
  - intros s1 s2 e Hc Hmin Hmax. unfold getContinuousError.
    rewrite Hc, Hmin, Hmax. reflexivity.
  - intros s e Hc. unfold getContinuousError. rewrite Hc. reflexivity.
  - intros s e Hc Hhalf. unfold getContinuousError. rewrite Hc.
    rewrite (proj2 (Qgtb_true _ _) Hhalf). cbn [andb].
    split; [|split].
    + intros Hpos. rewrite (proj2 (Qgtb_true _ _) Hpos). reflexivity.
    + intros Hneg. destruct (Qgtb e 0) eqn:E; [|reflexivity].
      apply Qgtb_true in E. contradiction.
    + intros Hb.
      assert (HR : 0 <= maximumInput s - minimumInput s) by qlra.
      destruct (wrap_shorter e _ HR Hhalf) as (H1 & H2 & H3).
      split; [exact H1|]. split; [|exact H3].
      intros Hlt. apply H2. qlra.
  - intros s e Hc Hhalf. unfold getContinuousError. rewrite Hc.
    rewrite (proj2 (Qgtb_false _ _) Hhalf). reflexivity.
  - intros s Hc Hmin Hmax. unfold getContinuousError. rewrite Hc.
    cbn [andb].
    assert (A200 : Qabs 200 == 200) by reflexivity.
    assert (B200 : Qabs (-200) == 200) by reflexivity.
    assert (A100 : Qabs 100 == 100) by reflexivity.
    split; [|split].
    + rewrite (proj2 (Qgtb_true _ _)) by (rewrite A200; qlra).
      rewrite (proj2 (Qgtb_true 200 0)) by qlra. qlra.
    + rewrite (proj2 (Qgtb_true _ _)) by (rewrite B200; qlra).
      rewrite (proj2 (Qgtb_false (-200) 0)) by qlra. qlra.
    + rewrite (proj2 (Qgtb_false _ _)) by (rewrite A100; qlra). qlra.
Qed.

Lemma getContinuousError_spec_witness :
  getContinuousError encoder 200 == -160 /\
  getContinuousError encoder (-200) == 160 /\
  getContinuousError encoder 100 == 100.
Proof.
  apply (proj2 (proj2 (proj2 (proj2 getContinuousError_spec))) encoder);
    reflexivity.
Defined.

(** ** The tolerance buffer *)

(** What [setToleranceBuffer] leaves in the buffer: the first, that is
    the oldest, [n] samples, in a deque of capacity [n]. *)
Lemma setToleranceBuffer_firstn (self : PIDController) (n : Z) :
  (0 <= n <= sys_maxsize)%Z ->
  outcome (setToleranceBuffer n) self = Return tt /\
  items (buf (after (setToleranceBuffer n) self))
  = firstn (Z.to_nat n) (items (buf self)) /\
  maxlen (buf (after (setToleranceBuffer n) self)) = Z.to_nat n.
Proof.
  intros Hn. destruct self. run.
  assert (E : ((n <? 0) || (sys_maxsize <? n))%Z = false).
  { apply orb_false_iff. split; apply Z.ltb_ge; lia. }
  rewrite E.
  cbn [items maxlen deque_new fst snd]. split; [reflexivity|].
  split; [|reflexivity].
  unfold lastn, islice. cbn [items].
  pose proof (firstn_le_length (Z.to_nat n) (items buf0)) as Hle.
  apply Nat.sub_0_le in Hle. rewrite Hle. reflexivity.
Qed.

(** A length that is negative or above [sys.maxsize] is refused and the
    controller is untouched. *)
Lemma setToleranceBuffer_negative (self : PIDController) (n : Z) :
  (n < 0 \/ sys_maxsize < n)%Z ->
  exists msg, setToleranceBuffer n self = (Raise (ValueError msg), self).
Proof.
  intros Hn. unfold setToleranceBuffer.
  assert (E : ((n <? 0) || (sys_maxsize <? n))%Z = true).
  { apply orb_true_iff. destruct Hn as [Hn | Hn]; [left | right];
      apply Z.ltb_lt; exact Hn. }
  rewrite E. eexists. reflexivity.
Qed.

(** C4 on the code: shrinking the buffer [1, 2, 3] to capacity 2 keeps
    the two oldest samples 1 and 2; the two newest are 2 and 3. *)
Theorem setToleranceBuffer_keeps_oldest :
  items (buf three_samples) = [1; 2; 3] /\
  buf (after (setToleranceBuffer 2) three_samples)
  = {| items := [1; 2]; maxlen := 2 |} /\
  lastn 2 (items (buf three_samples)) = [2; 3].
Proof.
  repeat split; reflexivity.
Qed.

(** ** onTarget *)

(** The sum and the average are read from the buffer only. *)
Lemma isAvgErrorValid_nonempty (self : PIDController) :
  isAvgErrorValid self = true <-> items (buf self) <> [].
Proof.
  unfold isAvgErrorValid. destruct (items (buf self)); cbn.
  - split; [discriminate | congruence].
  - split; [discriminate | reflexivity].
Qed.

(** [onTarget] after a tolerance was installed is the installed
    predicate on the controller as it was. *)
Lemma onTarget_after_absolute (self : PIDController) (t : Q) :
  outcome onTarget (after (setAbsoluteTolerance t) self)
  = Return (AbsoluteTolerance_onTarget self t).
Proof. destruct self. reflexivity. Qed.

Lemma onTarget_after_percent (self : PIDController) (p : Q) :
  outcome onTarget (after (setPercentTolerance p) self)
  = Return (PercentageTolerance_onTarget self p).
Proof. destruct self. reflexivity. Qed.

(** On binary64 numbers: the buffer is valid when it is not empty, and
    the average of a non-empty buffer is its sum over its length. *)
Lemma Float64_isAvgErrorValid_nonempty (self : Float64.PIDController) :
  Float64.isAvgErrorValid self = true
  <-> Float64.items (Float64.buf self) <> [].
Proof.
  unfold Float64.isAvgErrorValid.
  destruct (Float64.items (Float64.buf self)); cbn.
  - split; [discriminate | congruence].
  - split; [discriminate | reflexivity].
Qed.

Lemma Float64_getAvgError_average (self : Float64.PIDController) :
  Float64.items (Float64.buf self) <> [] ->
  Float64.getAvgError self
  = Float64.average (Float64.items (Float64.buf self)).
Proof.
  intros Hne. unfold Float64.getAvgError, Float64.average.
  destruct (Float64.items (Float64.buf self)); [congruence | reflexivity].
Qed.

(** C5, as stated, fails: with the input range [0, 100], the percentage
    7 and the one sample 7, [onTarget] returns True, because the
    threshold [7 / 100.0 * (100 - 0)] rounds to 7.000000000000001; in
    exact arithmetic [|7| < 7 / 100 * (100 - 0)] is false. *)
Lemma onTarget_percent_counterexample :
  Float64.onTarget
    (Float64.setPercentTolerance (Float64.float_of_nat 7)
       (Float64.with_samples 0 100 [Float64.float_of_nat 7]))
  = Return true /\
  ~ Qabs (7 / 1) < 7 / 100 * (100 - 0).
Proof.
  split; [vm_compute; reflexivity|].
  intros H. vm_compute in H. discriminate.
Qed.

(** C5, amended: without a tolerance [onTarget] raises a ValueError.
    After [setAbsoluteTolerance t] it returns whether the buffer is not
    empty and [|avg| < t], and after [setPercentTolerance p] whether the
    buffer is not empty and
    [|avg| < p / 100.0 * (maximumInput - minimumInput)], where [avg] is
    the sum of the buffer over its length and every operation is the
    rounded binary64 one, in the order the code writes them.  With
    [t = 0.5] an average of 0.3 gives True and 0.7 gives False. *)
Theorem onTarget_binary64 :
  (forall self,
      Float64.onTarget_attr self = None ->
      exists msg, Float64.onTarget self = Raise (ValueError msg)) /\
  (forall self t,
      exists b,
        Float64.onTarget (Float64.setAbsoluteTolerance t self) = Return b /\
        (b = true <->
         Float64.items (Float64.buf self) <> [] /\
         PrimFloat.ltb
           (PrimFloat.abs (Float64.average (Float64.items (Float64.buf self))))
           t = true)) /\
  (forall self p,
      exists b,
        Float64.onTarget (Float64.setPercentTolerance p self) = Return b /\
        (b = true <->
         Float64.items (Float64.buf self) <> [] /\
         PrimFloat.ltb
           (PrimFloat.abs (Float64.average (Float64.items (Float64.buf self))))
           (PrimFloat.mul (PrimFloat.div p (Float64.float_of_nat 100))
              (PrimFloat.sub (Float64.maximumInput self)
                 (Float64.minimumInput self)))
         = true)) /\
  (forall self,
      Float64.items (Float64.buf self) <> [] ->
      (Float64.average (Float64.items (Float64.buf self))
       = Float64.decimal 3 10 ->
       Float64.onTarget
         (Float64.setAbsoluteTolerance (Float64.decimal 5 10) self)
       = Return true) /\
      (Float64.average (Float64.items (Float64.buf self))
       = Float64.decimal 7 10 ->
       Float64.onTarget
         (Float64.setAbsoluteTolerance (Float64.decimal 5 10) self)
       = Return false)).
Proof.
  split; [|split; [|split]].
  - intros self Hn. unfold Float64.onTarget. rewrite Hn.
    eexists. reflexivity.
  - intros self t.
    exists (Float64.AbsoluteTolerance_onTarget self t).
    split; [reflexivity|].
    unfold Float64.AbsoluteTolerance_onTarget.
    rewrite andb_true_iff, Float64_isAvgErrorValid_nonempty.
    split; intros [Hne Hlt]; (split; [exact Hne|]).
    + rewrite <- (Float64_getAvgError_average self Hne). exact Hlt.
    + rewrite (Float64_getAvgError_average self Hne). exact Hlt.
  - intros self p.
    exists (Float64.PercentageTolerance_onTarget self p).
    split; [reflexivity|].
    unfold Float64.PercentageTolerance_onTarget.
    rewrite andb_true_iff, Float64_isAvgErrorValid_nonempty.
    split; intros [Hne Hlt]; (split; [exact Hne|]).
    + rewrite <- (Float64_getAvgError_average self Hne). exact Hlt.
    + rewrite (Float64_getAvgError_average self Hne). exact Hlt.
  - intros self Hne.
    split; intros Havg;
      change (Float64.onTarget
                (Float64.setAbsoluteTolerance (Float64.decimal 5 10) self))
        with (Return (Float64.AbsoluteTolerance_onTarget self
                        (Float64.decimal 5 10)));
      unfold Float64.AbsoluteTolerance_onTarget;
      rewrite (proj2 (Float64_isAvgErrorValid_nonempty self) Hne),
        (Float64_getAvgError_average self Hne), Havg;
      vm_compute; reflexivity.
Qed.

Lemma onTarget_binary64_witness :
  Float64.onTarget
    (Float64.setAbsoluteTolerance (Float64.decimal 5 10)
       (Float64.with_samples 0 0 [Float64.decimal 3 10]))
  = Return true.
Proof.
  refine (proj1 (proj2 (proj2 (proj2 onTarget_binary64))
                   (Float64.with_samples 0 0 [Float64.decimal 3 10]) _) _).
  - discriminate.
  - vm_compute. reflexivity.
Defined.

(** ** Ranges *)

(** C6: [setInputRange] and [setOutputRange] with [min > max] raise a
    ValueError and return the controller exactly as it was; with
    [min <= max] they return normally with the bounds stored. *)
Theorem set_range_spec (self : PIDController) (lo hi : Q) :
  (hi < lo ->
   (exists msg, setInputRange lo hi self = (Raise (ValueError msg), self)) /\
   (exists msg, setOutputRange lo hi self = (Raise (ValueError msg), self)))
  /\
  (lo <= hi ->
   (outcome (setInputRange lo hi) self = Return tt /\
    minimumInput (after (setInputRange lo hi) self) = lo /\
    maximumInput (after (setInputRange lo hi) self) = hi) /\
   setOutputRange lo hi self
   = (Return tt, set_maximumOutput hi (set_minimumOutput lo self))).
Proof.
  split.
  - intros Hlt. apply Qgtb_true in Hlt.
    unfold setInputRange, setOutputRange. rewrite Hlt.
    split; eexists; reflexivity.
  - intros Hle. apply Qgtb_false in Hle.
    unfold setInputRange, setOutputRange. rewrite Hle.
    split; [|reflexivity].
    destruct self. run. repeat split; reflexivity.
Qed.

Lemma set_range_spec_witness :
  (exists msg, setInputRange 3 1 fresh = (Raise (ValueError msg), fresh)) /\
  (exists msg, setOutputRange 3 1 fresh = (Raise (ValueError msg), fresh)).
Proof.
  apply (proj1 (set_range_spec fresh 3 1)). reflexivity.
Defined.

(** The bounds stay ordered: a controller whose input and output bounds
    are ordered keeps them so across both setters, whatever they are
    given. *)
Lemma set_range_keeps_order (self : PIDController) (lo hi : Q) :
  minimumInput self <= maximumInput self ->
  minimumOutput self <= maximumOutput self ->
  (minimumInput (after (setInputRange lo hi) self)
   <= maximumInput (after (setInputRange lo hi) self)) /\
  (minimumOutput (after (setOutputRange lo hi) self)
   <= maximumOutput (after (setOutputRange lo hi) self)).
Proof.
  intros Hi Ho. destruct self. run_in Hi. run_in Ho.
  unfold setInputRange, setOutputRange.
  destruct (Qgtb lo hi) eqn:E.
  - split; assumption.
  - apply Qgtb_false in E. run. split; exact E.
Qed.

(** ** Feed-forward *)



(** ** The setpoint *)

(** [setSetpoint] in one equation. *)
Lemma setSetpoint_after (self : PIDController) (v : Q) :
  outcome (setSetpoint v) self = Return tt /\
  items (buf (after (setSetpoint v) self)) = [] /\
  maxlen (buf (after (setSetpoint v) self)) = maxlen (buf self) /\
  totalError (after (setSetpoint v) self) = 0 /\
  minimumInput (after (setSetpoint v) self) = minimumInput self /\
  maximumInput (after (setSetpoint v) self) = maximumInput self.
Proof.
  destruct self. run. repeat split; reflexivity.
Qed.

(** C8: [setSetpoint v] stores [v] clamped into the input range when
    [maximumInput > minimumInput] and [v] itself otherwise; in every case
    it returns normally, empties the buffer, so that [isAvgErrorValid] is
    false, and sets the accumulator to 0; the next appended sample makes
    the average valid again in a buffer of positive capacity. *)
Theorem setSetpoint_spec (self : PIDController) (v : Q) :
  let self' := after (setSetpoint v) self in
  outcome (setSetpoint v) self = Return tt /\
  (minimumInput self < maximumInput self ->
   (maximumInput self < v -> setpoint self' = maximumInput self) /\
   (v < minimumInput self -> setpoint self' = minimumInput self) /\
   (minimumInput self <= v <= maximumInput self -> setpoint self' = v) /\
   setpoint self' == clamp v (minimumInput self) (maximumInput self) /\
   minimumInput self <= setpoint self' <= maximumInput self) /\
  (~ minimumInput self < maximumInput self -> setpoint self' = v) /\
  items (buf self') = [] /\
  isAvgErrorValid self' = false /\
  totalError self' = 0 /\
  (forall x,
      (0 < maxlen (buf self))%nat ->
      isAvgErrorValid (set_buf (deque_append x (buf self')) self') = true).
Proof.
  intros self'. subst self'.
  destruct (setSetpoint_after self v) as (Ho & Hb & Hm & Ht & _).
  split; [exact Ho|].
  split; [|split; [|split; [exact Hb | split; [|split; [exact Ht|]]]]].
  - clear Ho Hb Hm Ht. intros Hr. apply Qgtb_true in Hr.
    destruct self. run. run_in Hr. rewrite Hr.
    apply Qgtb_true in Hr.
    repeat split; intros; unfold clamp, py_max, py_min;
      repeat case_cmp; try reflexivity; try lra.
  - intros Hr. assert (E : Qgtb (maximumInput self) (minimumInput self) = false).
    { apply Qgtb_false. apply Qnot_lt_le. exact Hr. }
    destruct self. run. run_in E. rewrite E. reflexivity.
  - unfold isAvgErrorValid. rewrite Hb. reflexivity.
  - intros x Hpos. unfold isAvgErrorValid.
    destruct self. run_in Hb. run_in Hm. run.
    cbn [buf items maxlen deque_append deque_clear app] in *.
    destruct (maxlen buf0) as [|n]; [lia|]. reflexivity.
Qed.

Lemma setSetpoint_spec_witness :
  setpoint (after (setSetpoint 250) ranged) = maximumInput ranged.
Proof.
  apply (proj1 (proj2 (setSetpoint_spec ranged 250))); reflexivity.
Defined.

(** ** disable and reset *)

(** C9: with a sink attached, [disable] returns normally and changes two
    attributes only: the sink has received one more value, 0, and
    [enabled] is false, whatever it was before; [reset] is that followed
    by [prevError], [totalError] and [result] set to 0, and it leaves the
    buffer as it was. *)
Theorem disable_reset_spec (self : PIDController) out :
  pidOutput self = Some out ->
  disable self
  = (Return tt,
     set_enabled false (set_pidOutput (Some (pidWrite 0 out)) self)) /\
  pidOutput (after disable self)
  = Some {| written := written out ++ [0] |} /\
  enabled (after disable self) = false /\
  reset self
  = (Return tt,
     set_result 0 (set_totalError 0 (set_prevError 0 (after disable self)))) /\
  prevError (after reset self) = 0 /\
  totalError (after reset self) = 0 /\
  result (after reset self) = 0 /\
  buf (after reset self) = buf self /\
  pidOutput (after reset self) = pidOutput (after disable self) /\
  enabled (after reset self) = false.
Proof.
  intros Ho. destruct self. run_in Ho. subst. run.
  repeat split; reflexivity.
Qed.

Lemma disable_reset_spec_witness :
  pidOutput (after disable running) = Some {| written := [1; 0] |} /\
  enabled (after disable running) = false.
Proof.
  destruct (disable_reset_spec running (mkOutput [1]) eq_refl)
    as (_ & Hw & He & _).
  split; [exact Hw | exact He].
Defined.

(** On a freed controller [disable] raises before it assigns, and so
    does [reset]. *)
Lemma disable_freed (self : PIDController) :
  pidOutput self = None ->
  disable self = (Raise TypeError, self) /\
  reset self = (Raise TypeError, self).
Proof.
  intros Ho. destruct self. run_in Ho. subst. run. split; reflexivity.
Qed.

(** ** Changing the input range clears the history *)

(** C10: a successful [setInputRange] (with [min <= max]) returns
    normally, empties the buffer, so that [isAvgErrorValid] is false, and
    sets the accumulator to 0, also when the stored setpoint keeps its
    value. *)
Theorem setInputRange_clears (self : PIDController) (lo hi : Q) :
  lo <= hi ->
  let self' := after (setInputRange lo hi) self in
  outcome (setInputRange lo hi) self = Return tt /\
  after (setInputRange lo hi) self
  = after (setSetpoint (setpoint self))
      (set_maximumInput hi (set_minimumInput lo self)) /\
  items (buf self') = [] /\
  isAvgErrorValid self' = false /\
  totalError self' = 0 /\
  (lo <= setpoint self <= hi -> setpoint self' = setpoint self).
Proof.
  intros Hle self'. subst self'. apply Qgtb_false in Hle.
  unfold setInputRange. rewrite Hle.
  destruct self. run. apply Qgtb_false in Hle.
  repeat split; try reflexivity.
  intros [H1 H2]. repeat case_cmp; try reflexivity; lra.
Qed.

Lemma setInputRange_clears_witness :
  isAvgErrorValid ranged_with_history = true /\
  isAvgErrorValid (after (setInputRange 0 50) ranged_with_history) = false /\
  totalError (after (setInputRange 0 50) ranged_with_history) = 0 /\
  setpoint (after (setInputRange 0 50) ranged_with_history)
  = setpoint ranged_with_history.
Proof.
  assert (H : 0 <= 50) by (vm_compute; discriminate).
  destruct (setInputRange_clears ranged_with_history 0 50 H)
    as (_ & _ & _ & Hv & Ht & Hs).
  split; [reflexivity|]. split; [exact Hv|]. split; [exact Ht|].
  apply Hs. vm_compute. split; discriminate.
Defined.

(** * Further properties *)

(** Unfold the listeners and accessors as well. *)
Ltac run_more :=
  unfold call, getError, pChanged, iChanged, dChanged, fChanged,
    setpointChanged, enabledChanged, startLiveWindowMode,
    stopLiveWindowMode, getP, getI, getD, getF, get;
  run.

(** ** Ticks that do nothing *)

(** The guard at the head of [_calculate]. *)
Lemma calculate_skips (self : PIDController) (input now : Q) :
  enabled self = false \/ pidInput self = None \/ pidOutput self = None ->
  _calculate input now self = (Return tt, self).
Proof.
  intros H. destruct self. run_in H. run.
  destruct pidInput0 as [src|]; [|reflexivity].
  destruct pidOutput0 as [out|]; [|reflexivity].
  destruct enabled0; [|reflexivity].
  destruct H as [H | [H | H]]; discriminate.
Qed.

(** X1: a tick of a controller that is disabled, or whose source or sink
    was detached by [free], returns normally and leaves every attribute,
    the sink's history included, as it was; so does any run of ticks. *)
Theorem calculate_idle (self : PIDController) (input now : Q)
    (readings : list (Q * Q)) :
  enabled self = false \/ pidInput self = None \/ pidOutput self = None ->
  _calculate input now self = (Return tt, self) /\
  fold_left (fun s r => after (_calculate (fst r) (snd r)) s) readings self
  = self.
Proof.
  intros H. split; [exact (calculate_skips self input now H)|].
  induction readings as [|r rs IH]; [reflexivity|].
  cbn [fold_left]. unfold after at 2.
  rewrite (calculate_skips self (fst r) (snd r) H). exact IH.
Qed.

Lemma calculate_idle_witness :
  _calculate 5 1 fresh = (Return tt, fresh).
Proof.
  apply (calculate_idle fresh 5 1 []). left. reflexivity.
Defined.

(** X2: [disable] and [reset] silence the controller: after either, on
    a controller with a sink, any number of ticks changes nothing, so
    the last value the sink received stays the 0 written by
    [disable]. *)
Theorem ticks_after_disable (self : PIDController) out
    (readings : list (Q * Q)) :
  pidOutput self = Some out ->
  let tick s r := after (_calculate (fst r) (snd r)) s in
  fold_left tick readings (after disable self) = after disable self /\
  fold_left tick readings (after reset self) = after reset self /\
  pidOutput (fold_left tick readings (after reset self))
  = Some {| written := written out ++ [0] |}.
Proof.
  intros Ho tick.
  assert (Hidle : forall s, enabled s = false ->
                            fold_left tick readings s = s).
  { induction readings as [|r rs IH]; intros s Hs; [reflexivity|].
    cbn [fold_left]. unfold tick at 2. unfold after.
    rewrite calculate_skips by (left; exact Hs). cbn [snd]. apply IH.
    exact Hs. }
  assert (Hd : enabled (after disable self) = false).
  { destruct self. run_in Ho. subst. reflexivity. }
  assert (Hr : enabled (after reset self) = false).
  { destruct self. run_in Ho. subst. reflexivity. }
  rewrite (Hidle _ Hd), (Hidle _ Hr).
  split; [reflexivity|]. split; [reflexivity|].
  destruct self. run_in Ho. subst. reflexivity.
Qed.

Lemma ticks_after_disable_witness :
  pidOutput (fold_left (fun s r => after (_calculate (fst r) (snd r)) s)
               [(3, 2); (4, 3)] (after reset running))
  = Some {| written := [1; 0] |}.
Proof.
  apply (ticks_after_disable running (mkOutput [1]) [(3, 2); (4, 3)] eq_refl).
Defined.

(** ** Anti-windup *)

(** With the bounds the wrong way round, [clamp] returns the lower one. *)
Lemma clamp_reversed (value low high : Q) :
  high <= low -> clamp value low high = low.
Proof.
  intros H. unfold clamp, py_max.
  pose proof (py_min_le_r value high) as Hm.
  destruct (Qgtb (py_min value high) low) eqn:E; [|reflexivity].
  apply Qgtb_true in E. lra.
Qed.

(** Dividing ordered bounds by a gain keeps their order for a positive
    gain and reverses it for a negative one. *)
Lemma div_bounds_order (k a b : Q) :
  a <= b ->
  (0 < k -> a / k <= b / k) /\ (k < 0 -> b / k <= a / k).
Proof.
  intros Hab. split; intros Hk.
  - assert (Hne : ~ k == 0) by lra.
    pose proof (Qmult_div_r a k Hne). pose proof (Qmult_div_r b k Hne).
    apply (Qmult_le_l _ _ k Hk). lra.
  - assert (Hne : ~ k == 0) by lra.
    pose proof (Qmult_div_r a k Hne). pose proof (Qmult_div_r b k Hne).
    assert (Hk' : 0 < - k) by lra.
    apply (Qmult_le_l _ _ (- k) Hk'). lra.
Qed.

(** X3: anti-windup.  After a tick of an enabled, attached controller
    with ordered output bounds, the accumulator is held by the gain [k]
    it is divided by, I for a displacement source and P for a rate
    source: for [k > 0] it lies between [minimumOutput / k] and
    [maximumOutput / k]; for [k < 0] it does not follow the error at
    all, it is pinned at [minimumOutput / k]. *)
Theorem anti_windup (self : PIDController) src out (input now : Q) :
  enabled self = true ->
  pidInput self = Some src ->
  pidOutput self = Some out ->
  minimumOutput self <= maximumOutput self ->
  let self' := after (_calculate input now) self in
  let k := match getPIDSourceType src with
           | kDisplacement => I self
           | kRate => P self
           end in
  (0 < k ->
   minimumOutput self / k <= totalError self' <= maximumOutput self / k) /\
  (k < 0 -> totalError self' = minimumOutput self / k).
Proof.
  intros He Hi Ho Hb self' k. subst self' k.
  attached self src out He Hi Ho; run; run_in Hb.
  - destruct (div_bounds_order I0 _ _ Hb) as [Hpos Hneg].
    split; intros Hk.
    + rewrite (proj2 (nonzero_true I0)) by lra.
      apply clamp_in_range. exact (Hpos Hk).
    + rewrite (proj2 (nonzero_true I0)) by lra.
      apply clamp_reversed. exact (Hneg Hk).
  - destruct (div_bounds_order P0 _ _ Hb) as [Hpos Hneg].
    split; intros Hk.
    + rewrite (proj2 (nonzero_true P0)) by lra.
      apply clamp_in_range. exact (Hpos Hk).
    + rewrite (proj2 (nonzero_true P0)) by lra.
      apply clamp_reversed. exact (Hneg Hk).
Qed.

Lemma anti_windup_witness :
  minimumOutput integrating / I integrating
  <= totalError (after (_calculate 0 1) integrating)
  <= maximumOutput integrating / I integrating.
Proof.
  refine (proj1 (anti_windup integrating (mkSource kDisplacement)
                   (mkOutput []) 0 1 eq_refl eq_refl eq_refl _) _).
  - apply Qle_bool_imp_le. reflexivity.
  - reflexivity.
Defined.

(** ** The rolling buffer *)

(** Appending to a deque of positive capacity: the new element is the
    last one, and what was dropped came off the front. *)
Lemma deque_append_items (x : Q) (d : deque) :
  (0 < maxlen d)%nat ->
  let k := (List.length (items d) + 1 - maxlen d)%nat in
  items (deque_append x d) = skipn k (items d) ++ [x] /\
  (List.length (items (deque_append x d)) <= maxlen d)%nat /\
  ((List.length (items d) < maxlen d)%nat -> k = 0%nat).
Proof.
  intros Hpos k. subst k. unfold deque_append, lastn. cbn [items maxlen].
  rewrite length_app. cbn [List.length].
  set (k := (List.length (items d) + 1 - maxlen d)%nat).
  assert (Hk : (k <= List.length (items d))%nat) by (subst k; lia).
  rewrite skipn_app.
  replace (k - List.length (items d))%nat with 0%nat by lia.
  cbn [skipn]. split; [reflexivity|]. split.
  - rewrite length_app, length_skipn. cbn [List.length]. subst k. lia.
  - intros Hlt. subst k. lia.
Qed.

(** A deque never holds more than its capacity after an append. *)
Lemma deque_append_length (x : Q) (d : deque) :
  (List.length (items (deque_append x d)) <= maxlen d)%nat.
Proof.
  unfold deque_append, lastn. cbn [items maxlen].
  rewrite length_skipn, length_app. cbn [List.length]. lia.
Qed.

(** X4: an enabled tick records its error as the newest sample.  In a
    buffer of positive capacity the samples afterwards are a suffix of
    the old ones followed by the new error, nothing is dropped while the
    buffer is not full, the capacity is respected, and the average is
    valid; with the default capacity 1 the average is the error of the
    tick. *)
Theorem calculate_records_error
    (self : PIDController) src out (input now : Q) :
  enabled self = true ->
  pidInput self = Some src ->
  pidOutput self = Some out ->
  (0 < maxlen (buf self))%nat ->
  let self' := after (_calculate input now) self in
  (exists dropped kept,
      items (buf self) = dropped ++ kept /\
      items (buf self') = kept ++ [error self'] /\
      ((List.length (items (buf self)) < maxlen (buf self))%nat ->
       dropped = [])) /\
  maxlen (buf self') = maxlen (buf self) /\
  (List.length (items (buf self')) <= maxlen (buf self'))%nat /\
  isAvgErrorValid self' = true /\
  (maxlen (buf self) = 1%nat -> getAvgError self' == error self').
Proof.
  intros He Hi Ho Hpos self'. subst self'. unfold after.
  rewrite (calculate_enabled self src out input now He Hi Ho).
  destruct (calculate_terms_frame self src input now Hi)
    as (_ & _ & _ & Hbuf & Herr).
  cbn [snd].
  set (mid := after (calculate_terms input now) self) in *.
  change (buf (set_pidOutput ?o (set_buf ?b ?m))) with b.
  change (error (set_pidOutput ?o (set_buf ?b (set_result ?r ?m))))
    with (error m).
  unfold isAvgErrorValid, getAvgError.
  change (buf (set_pidOutput ?o (set_buf ?b ?m))) with b.
  rewrite Hbuf.
  destruct (deque_append_items (error mid) (buf self) Hpos)
    as (Hitems & Hlen & Hfull).
  rewrite Hitems.
  split; [|split; [reflexivity | split; [|split]]].
  - exists (firstn (List.length (items (buf self)) + 1 - maxlen (buf self))
              (items (buf self))).
    eexists. split; [symmetry; apply firstn_skipn|].
    split; [reflexivity|].
    intros Hlt. rewrite (Hfull Hlt). reflexivity.
  - rewrite <- Hitems. exact Hlen.
  - rewrite length_app. cbn [List.length].
    rewrite Nat.add_1_r. reflexivity.
  - intros H1. rewrite H1.
    replace (List.length (items (buf self)) + 1 - 1)%nat
      with (List.length (items (buf self))) by lia.
    rewrite skipn_all. cbn. unfold py_sum. cbn.
    field.
Qed.

Lemma calculate_records_error_witness :
  getAvgError (after (_calculate 0 1) first_tick)
  == error (after (_calculate 0 1) first_tick).
Proof.
  apply (calculate_records_error first_tick (mkSource kDisplacement)
           (mkOutput []) 0 1 eq_refl eq_refl eq_refl).
  - vm_compute. lia.
  - reflexivity.
Defined.

(** ** What every reachable controller satisfies *)

Lemma setSetpoint_well_formed (self : PIDController) (v : Q) :
  minimumInput self <= maximumInput self ->
  minimumOutput self <= maximumOutput self ->
  well_formed (after (setSetpoint v) self).
Proof.
  intros Hi Ho. destruct self. run_in Hi. run_in Ho.
  unfold well_formed. run. cbn [deque_clear items maxlen List.length].
  split; [exact Hi|]. split; [exact Ho|]. split; [lia|].
  intros Hlt. apply Qgtb_true in Hlt. rewrite Hlt. apply Qgtb_true in Hlt.
  repeat case_cmp; lra.
Qed.

(** Changing attributes outside the bounds, the buffer and the setpoint
    keeps a controller well formed. *)
Lemma well_formed_frame (s s' : PIDController) :
  minimumInput s' = minimumInput s ->
  maximumInput s' = maximumInput s ->
  minimumOutput s' = minimumOutput s ->
  maximumOutput s' = maximumOutput s ->
  setpoint s' = setpoint s ->
  (buf s' = buf s \/
   exists x, buf s' = deque_append x (buf s)) ->
  well_formed s -> well_formed s'.
Proof.
  unfold well_formed. intros -> -> -> -> -> Hb (H1 & H2 & H3 & H4).
  repeat split; try assumption; try (apply H4; assumption).
  destruct Hb as [-> | [x ->]]; [exact H3|].
  change (maxlen (deque_append x (buf s))) with (maxlen (buf s)).
  apply deque_append_length.
Qed.

Lemma calculate_well_formed (self : PIDController) (input now : Q) :
  well_formed self -> well_formed (after (_calculate input now) self).
Proof.
  intros Hwf.
  destruct (enabled self) eqn:He;
    [|unfold after; rewrite calculate_skips by (left; exact He); exact Hwf].
  destruct (pidInput self) as [src|] eqn:Hi;
    [|unfold after; rewrite calculate_skips by (right; left; exact Hi);
      exact Hwf].
  destruct (pidOutput self) as [out|] eqn:Ho;
    [|unfold after; rewrite calculate_skips by (right; right; exact Ho);
      exact Hwf].
  apply (well_formed_frame self); try exact Hwf;
    try (attached self src out He Hi Ho; run; repeat case_cmp; reflexivity).
  right. unfold after.
  rewrite (calculate_enabled self src out input now He Hi Ho).
  destruct (calculate_terms_frame self src input now Hi)
    as (_ & _ & _ & Hbuf & _).
  cbn [snd]. eexists.
  change (buf (set_pidOutput ?o (set_buf ?b ?m))) with b.
  rewrite Hbuf. reflexivity.
Qed.

(** A call keeps a controller well formed. *)
Lemma call_well_formed (c : Call) (self : PIDController) :
  well_formed self -> well_formed (call c self).
Proof.
  intros Hwf. destruct c; cbn [call].
  - apply calculate_well_formed. exact Hwf.
  - apply (well_formed_frame self); try exact Hwf;
      try (left);
      destruct self as [? ? ? ? ? [[[|]]|]]; reflexivity.
  - apply (well_formed_frame self); try exact Hwf; try left;
      destruct self; reflexivity.
  - apply (well_formed_frame self); try exact Hwf; try left;
      destruct self; reflexivity.
  - (* setInputRange *)
    unfold setInputRange. destruct (Qgtb minimumInput_ maximumInput_) eqn:E.
    + exact Hwf.
    + apply Qgtb_false in E. destruct Hwf as (_ & Ho & _).
      change (well_formed
                (after (setSetpoint
                          (setpoint (set_maximumInput maximumInput_
                                       (set_minimumInput minimumInput_ self))))
                   (set_maximumInput maximumInput_
                      (set_minimumInput minimumInput_ self)))).
      apply setSetpoint_well_formed; destruct self; run; run_in Ho;
        assumption.
  - (* setOutputRange *)
    unfold setOutputRange.
    destruct (Qgtb minimumOutput_ maximumOutput_) eqn:E.
    + exact Hwf.
    + apply Qgtb_false in E. destruct Hwf as (Hi & _ & Hb & Hs).
      destruct self. unfold well_formed in *. run. run_in Hi. run_in Hb.
      run_in Hs. repeat split; try assumption; apply Hs; assumption.
  - destruct Hwf as (Hi & Ho & _). apply setSetpoint_well_formed; assumption.
  - apply (well_formed_frame self); try exact Hwf; try left;
      destruct self as [? ? ? ? ? [?|]]; reflexivity.
  - apply (well_formed_frame self); try exact Hwf; try left;
      destruct self; reflexivity.
  - apply (well_formed_frame self); try exact Hwf; try left;
      destruct self; reflexivity.
  - (* setToleranceBuffer *)
    unfold setToleranceBuffer.
    destruct ((bufLength <? 0) || (sys_maxsize <? bufLength))%Z;
      [exact Hwf|].
    destruct Hwf as (Hi & Ho & _ & Hs).
    destruct self. unfold well_formed in *. run. run_in Hi. run_in Ho.
    run_in Hs. repeat split; try assumption; try (apply Hs; assumption).
    cbn [deque_new items maxlen]. unfold lastn, islice.
    rewrite length_skipn, length_firstn. lia.
  - apply (well_formed_frame self); try exact Hwf; try left;
      destruct self as [? ? ? ? ? ? ? ? ? ? ? ? ? ? ? ? ? ? ? ? ? [[?|?]|]];
      reflexivity.
  - apply (well_formed_frame self); try exact Hwf; try left;
      destruct self; reflexivity.
  - apply (well_formed_frame self); try exact Hwf; try left;
      destruct self as [? ? ? ? [?|]]; reflexivity.
  - apply (well_formed_frame self); try exact Hwf; try left;
      destruct self as [? ? ? ? [?|]]; reflexivity.
  - apply (well_formed_frame self); try exact Hwf; try left;
      destruct self; reflexivity.
  - apply (well_formed_frame self); try exact Hwf; try left;
      destruct self; reflexivity.
  - apply (well_formed_frame self); try exact Hwf; try left;
      destruct self; reflexivity.
  - apply (well_formed_frame self); try exact Hwf; try left;
      destruct self; reflexivity.
  - apply (well_formed_frame self); try exact Hwf; try left;
      destruct self; reflexivity.
  - (* setpointChanged *)
    unfold setpointChanged, after, bind, read. cbn [fst snd].
    destruct (negb (Qeq_bool (getSetpoint self) value)).
    + destruct Hwf as (Hi & Ho & _).
      apply (setSetpoint_well_formed self value Hi Ho).
    + exact Hwf.
  - apply (well_formed_frame self); try exact Hwf; try left;
      destruct self as [? ? ? ? [?|] ? ? ? ? ? ? ? [|]]; destruct value;
      reflexivity.
  - apply (well_formed_frame self); try exact Hwf; try left;
      destruct self as [? ? ? ? [?|]]; reflexivity.
  - exact Hwf.
Qed.

(** X6: every controller reached from the constructor by any sequence of
    ticks and method calls, with any arguments and whether or not they
    raise, has ordered input bounds and ordered output bounds, a buffer
    within its capacity, and, when the input range has positive width,
    a setpoint inside it. *)
Theorem reachable_well_formed
    (Kp Ki Kd Kf : Q) (ty : PIDSourceType) (log : list Q) (period_ now : Q)
    (cs : list Call) :
  well_formed (calls cs (init Kp Ki Kd Kf ty log period_ now)).
Proof.
  unfold calls.
  assert (H0 : well_formed (init Kp Ki Kd Kf ty log period_ now)).
  { unfold well_formed. cbn. repeat split; try lra; try lia. }
  revert H0. generalize (init Kp Ki Kd Kf ty log period_ now).
  induction cs as [|c cs IH]; intros s Hs; [exact Hs|].
  cbn [fold_left]. apply IH. apply call_well_formed. exact Hs.
Qed.

(** ** The table listeners *)

(** X7: [setpointChanged] ignores a value equal to the stored setpoint,
    keeping the error history and the accumulator, and otherwise is
    [setSetpoint].  A value outside an input range of positive width is
    never equal to the stored, clamped setpoint: each notification of it
    clears the history again. *)
Theorem setpointChanged_spec (self : PIDController) (value : Q) :
  (setpoint self == value -> setpointChanged value self = (Return tt, self)) /\
  (~ setpoint self == value ->
   setpointChanged value self = setSetpoint value self) /\
  (minimumInput self < maximumInput self ->
   value < minimumInput self \/ maximumInput self < value ->
   let self' := after (setSetpoint value) self in
   setpointChanged value self' = setSetpoint value self' /\
   items (buf (after (setpointChanged value) self')) = []).
Proof.
  split; [|split].
  - intros H. apply Qeq_bool_iff in H.
    unfold setpointChanged, bind, read, getSetpoint. rewrite H. reflexivity.
  - intros H. unfold setpointChanged, bind, read, getSetpoint.
    destruct (Qeq_bool (setpoint self) value) eqn:E; [|reflexivity].
    apply Qeq_bool_iff in E. contradiction.
  - intros Hr Hout self'.
    assert (Hne : ~ setpoint self' == value).
    { subst self'. destruct self. run. run_in Hr. run_in Hout.
      rewrite (proj2 (Qgtb_true _ _) Hr).
      repeat case_cmp; lra. }
    assert (Heq : setpointChanged value self' = setSetpoint value self').
    { unfold setpointChanged, bind, read, getSetpoint.
      destruct (Qeq_bool (setpoint self') value) eqn:E; [|reflexivity].
      apply Qeq_bool_iff in E. contradiction. }
    split; [exact Heq|].
    unfold after at 1. rewrite Heq.
    apply (setSetpoint_after self' value).
Qed.

Lemma setpointChanged_spec_witness :
  setpointChanged 20 ranged_with_history = (Return tt, ranged_with_history).
Proof.
  apply (proj1 (setpointChanged_spec ranged_with_history 20)). reflexivity.
Defined.

(** X8: [enabledChanged] does nothing when the value is the current
    state: in particular a repeated "disabled" does not write to the
    sink, unlike [disable].  Otherwise it is [enable] or [disable]; with
    a sink attached the controller ends in the requested state, and the
    sink receives a 0 exactly on the change from enabled to disabled. *)
Theorem enabledChanged_spec (self : PIDController) (value : bool) :
  (enabled self = value -> enabledChanged value self = (Return tt, self)) /\
  (enabled self = false -> enabledChanged true self = enable self) /\
  (enabled self = true -> enabledChanged false self = disable self) /\
  (forall out,
      pidOutput self = Some out ->
      outcome (enabledChanged value) self = Return tt /\
      isEnabled (after (enabledChanged value) self) = value /\
      pidOutput (after (enabledChanged value) self)
      = Some (if enabled self && negb value then pidWrite 0 out else out)).
Proof.
  split; [|split; [|split]].
  - intros H. destruct self. run_in H. subst.
    destruct value; reflexivity.
  - intros H. destruct self. run_in H. subst. reflexivity.
  - intros H. destruct self. run_in H. subst. reflexivity.
  - intros out Ho. destruct self. run_in Ho. subst.
    destruct enabled0, value; repeat split; reflexivity.
Qed.

Lemma enabledChanged_spec_witness :
  enabledChanged false fresh = (Return tt, fresh) /\
  pidOutput (after (enabledChanged false) running)
  = Some {| written := [1; 0] |}.
Proof.
  split.
  - apply (proj1 (enabledChanged_spec fresh false)). reflexivity.
  - apply (proj2 (proj2 (proj2 (enabledChanged_spec running false)))
             (mkOutput [1])).
    reflexivity.
Defined.

(** ** A freed controller *)

(** X9: [free] detaches source and sink and nothing else.  Afterwards a
    tick does nothing, even if the controller is still enabled;
    [disable], [reset] and [startLiveWindowMode] raise a TypeError and
    [calculateFeedForward] and [getError] an AttributeError, each before
    assigning anything: [reset] on a freed controller does not clear the
    accumulator. *)
Theorem free_spec (self : PIDController) (input now : Q) :
  let self' := after free self in
  free self = (Return tt, set_pidOutput None (set_pidInput None self)) /\
  _calculate input now self' = (Return tt, self') /\
  disable self' = (Raise TypeError, self') /\
  reset self' = (Raise TypeError, self') /\
  startLiveWindowMode self' = (Raise TypeError, self') /\
  calculateFeedForward now self' = (Raise AttributeError, self') /\
  getError input self' = (Raise AttributeError, self') /\
  totalError (after reset self') = totalError self.
Proof.
  destruct self. repeat split; reflexivity.
Qed.

(** ** Feed-forward is spent by the tick *)

(** In displacement mode, once [prevSetpoint] has caught up with the
    setpoint the feed-forward term is zero. *)
Lemma calculateFeedForward_settled (self : PIDController) src (now : Q) :
  pidInput self = Some src ->
  getPIDSourceType src = kDisplacement ->
  prevSetpoint self = setpoint self ->
  exists v, outcome (calculateFeedForward now) self = Return v /\ v == 0.
Proof.
  intros Hi Hty Hp. rewrite (calculateFeedForward_value self src now Hi).
  rewrite Hty. eexists. split; [reflexivity|].
  unfold getDeltaSetpoint. rewrite Hp.
  destruct (nonzero (Timer_get now (setpointTimer self))).
  - unfold Qdiv. ring.
  - ring.
Qed.

(** X10: with a displacement source the feed-forward term is consumed
    by the evaluation: after an enabled tick, or after a direct call of
    [calculateFeedForward], the next evaluation returns zero at any
    clock reading, until the setpoint is changed. *)
Theorem feedForward_once (self : PIDController) src (now1 now2 : Q) :
  pidInput self = Some src ->
  getPIDSourceType src = kDisplacement ->
  (exists v,
      outcome (calculateFeedForward now2)
        (after (calculateFeedForward now1) self) = Return v /\ v == 0) /\
  (forall out input,
      enabled self = true ->
      pidOutput self = Some out ->
      exists v,
        outcome (calculateFeedForward now2)
          (after (_calculate input now1) self) = Return v /\ v == 0).
Proof.
  intros Hi Hty. split.
  - apply (calculateFeedForward_settled _ src).
    + destruct self. run_in Hi. subst. destruct src as [[|]];
        [reflexivity | discriminate].
    + exact Hty.
    + destruct self. run_in Hi. subst. destruct src as [[|]];
        [reflexivity | discriminate].
  - intros out input He Ho.
    apply (calculateFeedForward_settled _ src).
    + attached self src out He Hi Ho; try discriminate; run;
        case_cmp; reflexivity.
    + exact Hty.
    + attached self src out He Hi Ho; try discriminate; run;
        case_cmp; reflexivity.
Qed.

Lemma feedForward_once_witness :
  (exists v, outcome (calculateFeedForward 2) moving = Return v /\ v == 15) /\
  exists v,
    outcome (calculateFeedForward 5) (after (calculateFeedForward 2) moving)
    = Return v /\ v == 0.
Proof.
  split; [eexists; split; reflexivity|].
  exact (proj1 (feedForward_once moving (mkSource kDisplacement) 2 5
                  eq_refl eq_refl)).
Defined.

(** ** What a tick leaves alone *)

(** X11: a tick never changes the configuration: gains, period, both
    ranges, the continuous flag, the enabled flag, the setpoint, the
    source, the tolerance and the capacity of the buffer are after any
    tick what they were before. *)
Theorem calculate_frame (self : PIDController) (input now : Q) :
  let self' := after (_calculate input now) self in
  P self' = P self /\ I self' = I self /\ D self' = D self /\
  F self' = F self /\ period self' = period self /\
  minimumInput self' = minimumInput self /\
  maximumInput self' = maximumInput self /\
  minimumOutput self' = minimumOutput self /\
  maximumOutput self' = maximumOutput self /\
  continuous self' = continuous self /\
  enabled self' = enabled self /\
  setpoint self' = setpoint self /\
  pidInput self' = pidInput self /\
  onTarget_attr self' = onTarget_attr self /\
  maxlen (buf self') = maxlen (buf self).
Proof.
  destruct self as [? ? ? ? [out|] [[[|]]|] ? ? ? ? ? ? [|]]; run;
    repeat case_cmp; repeat split; reflexivity.
Qed.

(** ** A proportional controller *)

(** [clamp] respects the equality of rationals in its first argument. *)
Lemma clamp_compat (v v' low high : Q) :
  v == v' -> clamp v low high == clamp v' low high.
Proof.
  intros H. unfold clamp, py_max, py_min. repeat case_cmp; lra.
Qed.

(** X12: with I = D = F = 0 and a displacement source, each enabled
    tick writes the clamp of [P * error] to the sink, where the error is
    the wrap-corrected [setpoint - input]; the accumulator and the
    previous error play no part. *)
Theorem proportional_output (self : PIDController) src out (input now : Q) :
  enabled self = true ->
  pidInput self = Some src ->
  pidOutput self = Some out ->
  getPIDSourceType src = kDisplacement ->
  I self == 0 -> D self == 0 -> F self == 0 ->
  let self' := after (_calculate input now) self in
  let e := getContinuousError self (setpoint self - input) in
  pidOutput self' = Some (pidWrite (result self') out) /\
  result self'
  == clamp (P self * e) (minimumOutput self) (maximumOutput self) /\
  totalError self' = totalError self.
Proof.
  intros He Hi Ho Hty HI HD HF self' e. subst self' e.
  attached self src out He Hi Ho; try discriminate.
  run_in HI. run_in HD. run_in HF. run.
  rewrite (proj2 (nonzero_false _) HI).
  split; [reflexivity|]. split; [|reflexivity].
  apply clamp_compat.
  generalize (getContinuousError
                (mkPID P0 I0 D0 F0 (Some out) (Some (mkSource kDisplacement))
                   period0 maximumOutput0 minimumOutput0 maximumInput0
                   minimumInput0 continuous0 true prevError0 totalError0
                   buf0 setpoint0 prevSetpoint0 error0 result0
                   setpointTimer0 onTarget_attr0)
                (setpoint0 - input)).
  intros e. rewrite HI, HD, HF. ring.
Qed.

Lemma proportional_output_witness :
  result (after (_calculate 0 1) first_tick)
  == clamp (P first_tick * getContinuousError first_tick (setpoint first_tick - 0))
       (minimumOutput first_tick) (maximumOutput first_tick).
Proof.
  apply (proportional_output first_tick (mkSource kDisplacement) (mkOutput [])
           0 1 eq_refl eq_refl eq_refl eq_refl);
    reflexivity.
Defined.

(** ** The wrapped error on a well-formed range *)

(** The comparison respects the equality of rationals. *)
Lemma Qgtb_compat (a a' b b' : Q) :
  a == a' -> b == b' -> Qgtb a b = Qgtb a' b'.
Proof.
  intros Ha Hb. unfold Qgtb. rewrite (Qcompare_comp a a' Ha b b' Hb).
  reflexivity.
Qed.

(** X13: on a continuous input, when setpoint and reading both lie in
    the input range, the error is at most half the range in size; the
    wrap is odd in the error, and it changes the error by zero or by one
    whole range. *)
Theorem getContinuousError_bounded (self : PIDController) :
  continuous self = true ->
  minimumInput self <= maximumInput self ->
  let R := maximumInput self - minimumInput self in
  (forall sp input,
      minimumInput self <= sp <= maximumInput self ->
      minimumInput self <= input <= maximumInput self ->
      Qabs (getContinuousError self (sp - input)) <= R / 2) /\
  (forall e, getContinuousError self (- e) == - getContinuousError self e) /\
  (forall e,
      getContinuousError self e == e \/
      getContinuousError self e == e - R \/
      getContinuousError self e == e + R).
Proof.
  intros Hc Hb R. subst R.
  assert (HR : 0 <= maximumInput self - minimumInput self) by lra.
  split; [|split].
  - intros sp input Hsp Hin. unfold getContinuousError. rewrite Hc.
    cbn [andb].
    destruct (Qgtb (Qabs (sp - input))
                ((maximumInput self - minimumInput self) / 2)) eqn:E.
    + apply Qgtb_true in E.
      destruct (wrap_shorter (sp - input) _ HR E) as (_ & _ & H3).
      apply H3. apply Qabs_Qle_condition. lra.
    + apply Qgtb_false in E. exact E.
  - intros e. unfold getContinuousError. rewrite Hc. cbn [andb].
    rewrite (Qgtb_compat (Qabs (- e)) (Qabs e) _ _
               (Qabs_opp e) (Qeq_refl _)).
    destruct (Qgtb (Qabs e) ((maximumInput self - minimumInput self) / 2))
      eqn:E; [|reflexivity].
    apply Qgtb_true in E.
    assert (Hne : ~ e == 0).
    { intros H0. rewrite H0 in E. change (Qabs 0) with 0 in E. qlra. }
    repeat case_cmp; lra.
  - intros e. unfold getContinuousError. rewrite Hc. cbn [andb].
    destruct (Qgtb (Qabs e) ((maximumInput self - minimumInput self) / 2));
      [|left; reflexivity].
    destruct (Qgtb e 0); [right; left | right; right]; reflexivity.
Qed.

Lemma getContinuousError_bounded_witness :
  Qabs (getContinuousError encoder (350 - 10)) <= (360 - 0) / 2.
Proof.
  apply (proj1 (getContinuousError_bounded encoder eq_refl
                  (Qle_bool_imp_le 0 360 eq_refl)));
    split; apply Qle_bool_imp_le; reflexivity.
Defined.

(** ** onTarget at its edges *)

(** X14: with a percentage tolerance on an input range of zero width,
    which is the range of a new controller until [setInputRange] is
    called, [onTarget] returns False whatever the percentage and the
    error history. *)
Theorem onTarget_percent_degenerate (self : PIDController) (p : Q) :
  maximumInput self == minimumInput self ->
  outcome onTarget (after (setPercentTolerance p) self) = Return false.
Proof.
  intros Hr. rewrite onTarget_after_percent. f_equal.
  unfold PercentageTolerance_onTarget.
  apply andb_false_iff. right. apply Qltb_false.
  assert (H0 : p / 100 * (maximumInput self - minimumInput self) == 0)
    by (rewrite Hr; unfold Qdiv; ring).
  rewrite H0. apply Qabs_nonneg.
Qed.

Lemma onTarget_percent_degenerate_witness :
  outcome onTarget (after (setPercentTolerance 50) near_target)
  = Return false.
Proof.
  apply (onTarget_percent_degenerate near_target 50). reflexivity.
Defined.

(** X15: once a tolerance is installed, [onTarget] never raises, and
    right after [setSetpoint], or after a [setInputRange] that succeeds,
    it returns False, whatever the tolerance: the history was
    cleared. *)
Theorem onTarget_after_clear (self : PIDController) (tol : Tolerance) :
  onTarget_attr self = Some tol ->
  (exists b, onTarget self = (Return b, self)) /\
  (forall v, outcome onTarget (after (setSetpoint v) self) = Return false) /\
  (forall lo hi,
      lo <= hi ->
      outcome onTarget (after (setInputRange lo hi) self) = Return false).
Proof.
  intros Ht. split; [|split].
  - destruct self. run_in Ht. subst. destruct tol; eexists; reflexivity.
  - intros v. destruct self. run_in Ht. subst. destruct tol; reflexivity.
  - intros lo hi Hle. apply Qgtb_false in Hle.
    unfold setInputRange. rewrite Hle.
    destruct self. run_in Ht. subst. destruct tol; reflexivity.
Qed.

Lemma onTarget_after_clear_witness :
  outcome onTarget
    (after (setSetpoint 5) (after (setAbsoluteTolerance 100) near_target))
  = Return false.
Proof.
  apply (proj1 (proj2 (onTarget_after_clear
                         (after (setAbsoluteTolerance 100) near_target)
                         (AbsoluteTolerance 100) eq_refl))).
Defined.

(** ** Resizing the buffer *)

(** A tick on a buffer of capacity 0 stores nothing. *)
Lemma calculate_capacity_zero (self : PIDController) (input now : Q) :
  maxlen (buf self) = 0%nat ->
  items (buf self) = [] ->
  maxlen (buf (after (_calculate input now) self)) = 0%nat /\
  items (buf (after (_calculate input now) self)) = [].
Proof.
  intros Hm Hi.
  destruct (enabled self) eqn:He;
    [|unfold after; rewrite calculate_skips by (left; exact He);
      split; assumption].
  destruct (pidInput self) as [src|] eqn:Hsrc;
    [|unfold after; rewrite calculate_skips by (right; left; exact Hsrc);
      split; assumption].
  destruct (pidOutput self) as [out|] eqn:Hout;
    [|unfold after; rewrite calculate_skips by (right; right; exact Hout);
      split; assumption].
  unfold after.
  rewrite (calculate_enabled self src out input now He Hsrc Hout).
  destruct (calculate_terms_frame self src input now Hsrc)
    as (_ & _ & _ & Hbuf & _).
  cbn [snd].
  change (buf (set_pidOutput ?o (set_buf ?b ?m))) with b.
  rewrite Hbuf. cbn [deque_append items maxlen]. rewrite Hm.
  split; [reflexivity|]. unfold lastn. apply skipn_all2. lia.
Qed.

(** X16: [setToleranceBuffer n] with [0 <= n <= sys.maxsize] returns
    normally and leaves a buffer of capacity [n] holding the first
    [min n (number of samples)] samples, the oldest ones; with [n < 0]
    or [n > sys.maxsize] it raises a ValueError and changes nothing.
    After [setToleranceBuffer 0] no tick stores a sample any more, so
    the average error stays invalid through any number of ticks. *)
Theorem setToleranceBuffer_spec (self : PIDController) (n : Z) :
  ((0 <= n <= sys_maxsize)%Z ->
   outcome (setToleranceBuffer n) self = Return tt /\
   items (buf (after (setToleranceBuffer n) self))
   = firstn (Z.to_nat n) (items (buf self)) /\
   List.length (items (buf (after (setToleranceBuffer n) self)))
   = Nat.min (Z.to_nat n) (List.length (items (buf self))) /\
   maxlen (buf (after (setToleranceBuffer n) self)) = Z.to_nat n) /\
  ((n < 0 \/ sys_maxsize < n)%Z ->
   exists msg, setToleranceBuffer n self = (Raise (ValueError msg), self)) /\
  (forall readings : list (Q * Q),
      isAvgErrorValid
        (fold_left (fun s r => after (_calculate (fst r) (snd r)) s) readings
           (after (setToleranceBuffer 0) self))
      = false).
Proof.
  split; [|split].
  - intros Hn.
    destruct (setToleranceBuffer_firstn self n Hn) as (Ho & Hi & Hm).
    split; [exact Ho|]. split; [exact Hi|]. split; [|exact Hm].
    rewrite Hi. apply length_firstn.
  - apply setToleranceBuffer_negative.
  - intros readings.
    assert (H0 : maxlen (buf (after (setToleranceBuffer 0) self)) = 0%nat
                 /\ items (buf (after (setToleranceBuffer 0) self)) = []).
    { destruct self. split; reflexivity. }
    revert H0. generalize (after (setToleranceBuffer 0) self).
    induction readings as [|r rs IH]; intros s [Hm Hi].
    + cbn [fold_left]. unfold isAvgErrorValid. rewrite Hi. reflexivity.
    + cbn [fold_left]. apply IH.
      apply calculate_capacity_zero; assumption.
Qed.

Lemma setToleranceBuffer_spec_witness :
  items (buf (after (setToleranceBuffer 2) three_samples)) = [1; 2] /\
  (exists msg,
      setToleranceBuffer (-1) three_samples
      = (Raise (ValueError msg), three_samples)) /\
  exists msg,
    setToleranceBuffer (2 ^ 63) three_samples
    = (Raise (ValueError msg), three_samples).
Proof.
  split; [|split].
  - apply (proj1 (setToleranceBuffer_spec three_samples 2)).
    unfold sys_maxsize. lia.
  - apply (proj1 (proj2 (setToleranceBuffer_spec three_samples (-1)))).
    left. lia.
  - apply (proj1 (proj2 (setToleranceBuffer_spec three_samples (2 ^ 63)))).
    right. unfold sys_maxsize. lia.
Defined.

(** ** The values a run of ticks writes *)

(** One enabled tick: the value written is in range and the controller
    is ready for the next tick. *)
Lemma calculate_step (self : PIDController) src out (input now : Q) :
  enabled self = true ->
  pidInput self = Some src ->
  pidOutput self = Some out ->
  minimumOutput self <= maximumOutput self ->
  let self' := after (_calculate input now) self in
  exists r,
    pidOutput self' = Some (pidWrite r out) /\
    minimumOutput self <= r <= maximumOutput self /\
    enabled self' = true /\
    pidInput self' = Some src /\
    minimumOutput self' = minimumOutput self /\
    maximumOutput self' = maximumOutput self.
Proof.
  intros He Hi Ho Hb self'. subst self'. unfold after.
  rewrite (calculate_enabled self src out input now He Hi Ho).
  destruct (calculate_terms_frame self src input now Hi) as (Hmin & Hmax & _).
  cbn [snd]. eexists. split; [reflexivity|].
  rewrite Hmin, Hmax. split; [apply clamp_in_range; exact Hb|].
  attached self src out He Hi Ho; run; repeat case_cmp;
    repeat split; reflexivity.
Qed.

(** X17: a run of ticks of an enabled, attached controller with ordered
    output bounds appends exactly one value per tick to the sink's
    history, in order, and every one of them lies between
    [minimumOutput] and [maximumOutput]. *)
Theorem ticks_outputs (self : PIDController) src out
    (readings : list (Q * Q)) :
  enabled self = true ->
  pidInput self = Some src ->
  pidOutput self = Some out ->
  minimumOutput self <= maximumOutput self ->
  exists ws,
    pidOutput
      (fold_left (fun s r => after (_calculate (fst r) (snd r)) s)
         readings self)
    = Some {| written := written out ++ ws |} /\
    List.length ws = List.length readings /\
    Forall (fun w => minimumOutput self <= w <= maximumOutput self) ws.
Proof.
  revert self out.
  induction readings as [|[input now] rs IH]; intros self out He Hi Ho Hb.
  - exists []. cbn [fold_left]. rewrite app_nil_r. destruct out.
    split; [exact Ho|]. split; [reflexivity | constructor].
  - cbn [fold_left fst snd].
    destruct (calculate_step self src out input now He Hi Ho Hb)
      as (r & Hw & Hr & He' & Hi' & Hmin & Hmax).
    assert (Hb' : minimumOutput (after (_calculate input now) self)
                  <= maximumOutput (after (_calculate input now) self))
      by (rewrite Hmin, Hmax; exact Hb).
    destruct (IH _ _ He' Hi' Hw Hb') as (ws & Hws & Hlen & Hall).
    exists (r :: ws). split; [|split].
    + rewrite Hws. cbn [pidWrite written]. rewrite <- app_assoc.
      reflexivity.
    + cbn [List.length]. rewrite Hlen. reflexivity.
    + constructor; [exact Hr|]. rewrite Hmin, Hmax in Hall. exact Hall.
Qed.

Lemma ticks_outputs_witness :
  exists ws,
    pidOutput
      (fold_left (fun s r => after (_calculate (fst r) (snd r)) s)
         [(0, 1); (4, 2); (20, 3)] first_tick)
    = Some {| written := [] ++ ws |} /\
    List.length ws = 3%nat /\
    Forall (fun w => minimumOutput first_tick <= w
                     <= maximumOutput first_tick) ws.
Proof.
  apply (ticks_outputs first_tick (mkSource kDisplacement) (mkOutput [])
           [(0, 1); (4, 2); (20, 3)] eq_refl eq_refl eq_refl).
  apply Qle_bool_imp_le. reflexivity.
Defined.

(** ** GyroBase *)

(** X18: a gyro reached from the constructor by any sequence of
    [setPIDSourceType] calls holds a member of [PIDSourceType]: the
    argument of the last call that passed the check, or kDisplacement if
    none did; a call with anything else raises a ValueError and changes
    nothing.  So [pidGet] is [getRate()] or [getAngle()] by that type
    and never its fallback 0.0, and on the base class it raises
    NotImplementedError. *)
Theorem gyro_source_type (vs : list GyroBase.PyValue)
    (getRate_ getAngle_ : GyroBase.Result Q) :
  let g := GyroBase.setPIDSourceTypes vs GyroBase.init in
  (exists t,
      GyroBase.getPIDSourceType g = GyroBase.Member t /\
      GyroBase.pidGet getRate_ getAngle_ g
      = match t with kRate => getRate_ | kDisplacement => getAngle_ end) /\
  GyroBase.pidGet GyroBase.getRate GyroBase.getAngle g
  = GyroBase.Raises GyroBase.NotImplementedError /\
  (forall t,
      GyroBase.setPIDSourceType (GyroBase.Member t) g
      = (GyroBase.Returns tt, GyroBase.mkGyro (GyroBase.Member t)) /\
      GyroBase.getPIDSourceType
        (GyroBase.setPIDSourceTypes (vs ++ [GyroBase.Member t])
           GyroBase.init)
      = GyroBase.Member t) /\
  (exists msg,
      GyroBase.setPIDSourceType GyroBase.Other g
      = (GyroBase.Raises (GyroBase.GyroValueError msg), g)) /\
  GyroBase.setPIDSourceTypes (vs ++ [GyroBase.Other]) GyroBase.init = g.
Proof.
  intros g.
  assert (Hm : exists t, GyroBase.pidSource g = GyroBase.Member t).
  { subst g. unfold GyroBase.setPIDSourceTypes.
    assert (H0 : exists t, GyroBase.pidSource GyroBase.init
                           = GyroBase.Member t)
      by (eexists; reflexivity).
    revert H0. generalize GyroBase.init.
    induction vs as [|v vs IH]; intros g0 H0; [exact H0|].
    cbn [fold_left]. apply IH. destruct v as [t|].
    - exists t. reflexivity.
    - exact H0. }
  destruct Hm as [t Ht].
  split; [|split; [|split; [|split]]].
  - exists t. unfold GyroBase.getPIDSourceType, GyroBase.pidGet.
    rewrite Ht. split; [reflexivity|]. destruct t; reflexivity.
  - unfold GyroBase.pidGet. rewrite Ht. destruct t; reflexivity.
  - intros t'. split; [reflexivity|].
    unfold GyroBase.setPIDSourceTypes. rewrite fold_left_app. reflexivity.
  - eexists. reflexivity.
  - unfold GyroBase.setPIDSourceTypes. rewrite fold_left_app. reflexivity.
Qed.
